(** * generate_icons.py: the minimal PNG encoder and its icon driver

    A shallow embedding of [src/generate_icons.py].  Python values are
    modelled as follows:
    - [bytes] / [bytearray] objects are lists of [Byte.byte];
    - Python integers are [Z]; every conversion of an integer to a byte
      checks the range the way the interpreter does and raises otherwise;
    - a raised exception is a value of [Exception]; code that may raise
      returns a [result];
    - the [zlib] module is an interface ([ZlibModule]): [zlib.crc32] is
      fixed by its definition (ISO 3309 / PNG annex D) and is given in
      full, while the exact bytes [zlib.compress] emits are the library's
      choice and stay abstract;
    - the file system and the console are an explicit [World] that the
      driver threads through its calls. *)

From Stdlib Require Import ZArith List Lia Ascii String.
From Stdlib.Strings Require Import Byte.
From stdpp Require Import base gmap strings list pretty.

Open Scope Z_scope.

(** ** Python runtime *)

Module Py.

Definition bytes := list byte.

(** Instances of Python's [Exception] class that the script can meet.
    Each carries the text that [str(e)] yields. *)
Inductive Exception :=
| struct_error (msg : string)
| ValueError (msg : string)
| OSError (msg : string)
| UnicodeEncodeError (msg : string).

Definition str_of_exception (e : Exception) : string :=
  match e with
  | struct_error msg | ValueError msg | OSError msg | UnicodeEncodeError msg => msg
  end.

(** Outcome of evaluating an expression: a value, or a raised exception. *)
Inductive result (A : Type) :=
| Return (a : A)
| Raise (e : Exception).
Arguments Return {A} a.
Arguments Raise {A} e.

#[global] Instance result_ret : MRet result := @Return.
#[global] Instance result_bind : MBind result := fun A B f m =>
  match m with
  | Return a => f a
  | Raise e => Raise e
  end.

(** The integer value of a byte and the byte of an integer in [0, 256). *)
Definition Z_of_byte (b : byte) : Z := Z.of_N (Byte.to_N b).

Definition byte_of_Z (z : Z) : byte :=
  match Byte.of_N (Z.to_N (z mod 256)) with
  | Some b => b
  | None => x00
  end.

Definition in_byte_range (z : Z) : bool := (0 <=? z) && (z <? 256).

(** [range(n)]: the integers 0 .. n-1, empty when [n <= 0]. *)
Definition range (n : Z) : list Z := seqZ 0 n.

(** [for x in xs: s = body(x, s)], stopping at the first exception. *)
Fixpoint for_in {A S : Type} (xs : list A) (body : A -> S -> result S) (s : S)
  : result S :=
  match xs with
  | [] => Return s
  | x :: xs' => s' ← body x s; for_in xs' body s'
  end.

(** [bytearray.append(v)] and [bytearray.extend(vs)]: both raise
    [ValueError] when a value is not in [range(0, 256)]. *)
Definition byte_range_message : string := "byte must be in range(0, 256)".

Definition bytearray_append (buf : bytes) (v : Z) : result bytes :=
  if in_byte_range v then Return (buf ++ [byte_of_Z v])
  else Raise (ValueError byte_range_message).

Definition bytearray_extend (buf : bytes) (vs : list Z) : result bytes :=
  if forallb in_byte_range vs then Return (buf ++ map byte_of_Z vs)
  else Raise (ValueError byte_range_message).

End Py.

(** ** The [struct] module, big-endian ('>') formats without padding *)

Module Struct.
Import Py.

(** The two format characters the script uses: 'I' (unsigned 32 bit) and
    'B' (unsigned 8 bit). *)
Inductive format_char := fmt_I | fmt_B.

(** The [n] low-order bytes of [v], most significant first. *)
Fixpoint big_endian (n : nat) (v : Z) : bytes :=
  match n with
  | O => []
  | S n' => big_endian n' (Z.shiftr v 8) ++ [byte_of_Z (Z.land v 255)]
  end.

Definition format_max (c : format_char) : Z :=
  match c with
  | fmt_I => 4294967295
  | fmt_B => 255
  end.

Definition format_size (c : format_char) : nat :=
  match c with
  | fmt_I => 4%nat
  | fmt_B => 1%nat
  end.

Definition range_message (c : format_char) : string :=
  match c with
  | fmt_I => "'I' format requires 0 <= number <= 4294967295"
  | fmt_B => "ubyte format requires 0 <= number <= 255"
  end.

(** What CPython says of a negative number: 'I' converts its argument to
    a C unsigned long first, which a negative number fails; 'B' compares
    it with its range. *)
Definition negative_message (c : format_char) : string :=
  match c with
  | fmt_I => "argument out of range"
  | fmt_B => "ubyte format requires 0 <= number <= 255"
  end.

(** A number above the range is reported with [range_message].  CPython
    words the message so for every number that a C unsigned long holds;
    from 2^64 on, a value no [len] reaches, it words it as for a negative
    number.  The statements about arbitrary dimensions therefore leave
    the message open. *)
Definition pack_one (c : format_char) (v : Z) : result bytes :=
  if v <? 0 then Raise (struct_error (negative_message c))
  else if v <=? format_max c then Return (big_endian (format_size c) v)
  else Raise (struct_error (range_message c)).

Fixpoint pack_all (fmt : list format_char) (args : list Z) : result bytes :=
  match fmt, args with
  | c :: fmt', v :: args' =>
      b ← pack_one c v; rest ← pack_all fmt' args'; Return (b ++ rest)
  | _, _ => Return []
  end.

(** [struct.pack('>' + fmt, *args)]: the number of arguments is checked
    first, then each argument against the range of its format. *)
Definition pack (fmt : list format_char) (args : list Z) : result bytes :=
  if Nat.eqb (length fmt) (length args) then pack_all fmt args
  else Raise (struct_error "pack expected a different number of items for packing").

End Struct.

(** ** The [zlib] module *)

Module Zlib.
Import Py.

(** [zlib.crc32]: the CRC-32 of ISO 3309 and PNG, reflected polynomial
    0xEDB88320, register preset to all ones and complemented at the end. *)
Definition crc32_polynomial : Z := 0xEDB88320.

Definition crc32_step (c : Z) : Z :=
  if Z.testbit c 0 then Z.lxor (Z.shiftr c 1) crc32_polynomial
  else Z.shiftr c 1.

Definition crc32_update (c : Z) (b : byte) : Z :=
  Nat.iter 8 crc32_step (Z.lxor c (Z_of_byte b)).

Definition crc32 (data : bytes) : Z :=
  Z.lxor (fold_left crc32_update data 0xFFFFFFFF) 0xFFFFFFFF.

(** [zlib.compress(data, level)] and [zlib.decompress(data)].  Which bytes
    the compressor emits depends on the library's match finder, so the
    encoder is verified against this interface; [decompress] is what a PNG
    reader applies to the IDAT payload. *)
Class ZlibModule := {
  compress : bytes -> Z -> bytes;
  decompress : bytes -> option bytes
}.

(** [Z_BEST_COMPRESSION] *)
Definition best_compression : Z := 9.

(** The library's contract: decompression inverts compression. *)
Definition lossless (zlib : ZlibModule) : Prop :=
  forall (data : bytes) (level : Z),
    @decompress zlib (@compress zlib data level) = Some data.

End Zlib.

(** ** The encoder: [create_chunk] and [create_png] *)

Import Py.

Section Encoder.
Context {zlib : Zlib.ZlibModule}.

Definition png_signature : bytes :=
  [x89; x50; x4e; x47; x0d; x0a; x1a; x0a].

Definition default_bg_color : list Z := [255; 107; 107].
Definition default_text_color : list Z := [33; 150; 243].

(** Lines 43-48. *)
Definition create_chunk (chunk_type data : bytes) : result bytes :=
  length_field ← Struct.pack [Struct.fmt_I] [Z.of_nat (length data)];
  let crc := Z.land (Zlib.crc32 (chunk_type ++ data)) 0xffffffff in
  crc_bytes ← Struct.pack [Struct.fmt_I] [crc];
  Return (length_field ++ chunk_type ++ data ++ crc_bytes).

(** Lines 24-29: the loop that fills [image_data]. *)
Definition build_image_data (width height : Z) (bg_color : list Z)
  : result bytes :=
  for_in (range height) (fun _ image_data =>
    image_data ← bytearray_append image_data 0;
    for_in (range width) (fun _ image_data =>
      bytearray_extend image_data bg_color) image_data) [].

Definition ihdr_format : list Struct.format_char :=
  [Struct.fmt_I; Struct.fmt_I; Struct.fmt_B; Struct.fmt_B; Struct.fmt_B;
   Struct.fmt_B; Struct.fmt_B].

(** Lines 11-41.  [text_color] is a parameter of the Python function. *)
Definition create_png (width height : Z) (bg_color text_color : list Z)
  : result bytes :=
  ihdr_data ← Struct.pack ihdr_format [width; height; 8; 2; 0; 0; 0];
  ihdr_chunk ← create_chunk (list_byte_of_string "IHDR") ihdr_data;
  image_data ← build_image_data width height bg_color;
  let compressed_data := Zlib.compress image_data 9 in
  idat_chunk ← create_chunk (list_byte_of_string "IDAT") compressed_data;
  iend_chunk ← create_chunk (list_byte_of_string "IEND") [];
  let png_data := png_signature ++ ihdr_chunk ++ idat_chunk ++ iend_chunk in
  Return png_data.

End Encoder.

(** ** The operating system: files, directories and the console *)

Module OS.

(** The calls the driver makes to the operating system. *)
Inductive syscall :=
| sys_makedirs (path : string)
| sys_open_wb (path : string)
| sys_write (path : string)
| sys_print (line : string).

(** The state outside the program.  [fault] is the environment's
    disposition: the exception a call meets (a missing permission, a full
    disk, a file in the place of a directory, a console that cannot
    encode a line), if any. *)
Record World := {
  files : gmap string bytes;
  dirs : gset string;
  stdout : list string;
  fault : syscall -> option Exception
}.

(** Statements: they read and change the world and may raise. *)
Definition Prog (A : Type) : Type := World -> result A * World.

#[global] Instance prog_ret : MRet Prog := fun A a w => (Return a, w).
#[global] Instance prog_bind : MBind Prog := fun A B f m w =>
  match m w with
  | (Return a, w') => f a w'
  | (Raise e, w') => (Raise e, w')
  end.

(** A pure computation that may raise, used as a statement. *)
Definition lift {A : Type} (r : result A) : Prog A := fun w => (r, w).

Definition with_files (f : gmap string bytes) (w : World) : World :=
  {| files := f; dirs := dirs w; stdout := stdout w; fault := fault w |}.

Definition with_dirs (d : gset string) (w : World) : World :=
  {| files := files w; dirs := d; stdout := stdout w; fault := fault w |}.

Definition with_stdout (out : list string) (w : World) : World :=
  {| files := files w; dirs := dirs w; stdout := out; fault := fault w |}.

(** A call either meets its fault or takes effect. *)
Definition syscall_ (call : syscall) (effect : World -> World) : Prog unit :=
  fun w =>
    match fault w call with
    | Some e => (Raise e, w)
    | None => (Return tt, effect w)
    end.

(** [print(line)]: writes the line to the console, or raises (the
    console's encoding may lack a character of the line, the stream may
    be closed). *)
Definition print (line : string) : Prog unit :=
  syscall_ (sys_print line) (fun w => with_stdout (stdout w ++ [line]) w).

(** [posixpath.join(a, b)] *)
Definition starts_with_sep (s : string) : bool :=
  match s with
  | String c _ => Ascii.eqb c "/"%char
  | EmptyString => false
  end.

Fixpoint ends_with_sep (s : string) : bool :=
  match s with
  | EmptyString => false
  | String c EmptyString => Ascii.eqb c "/"%char
  | String _ s' => ends_with_sep s'
  end.

Definition path_join (a b : string) : string :=
  if starts_with_sep b then b
  else if String.eqb a "" || ends_with_sep a then a +:+ b
  else a +:+ "/" +:+ b.

(** The path itself and every leading directory of it. *)
Fixpoint leading_dirs (seen rest : string) : list string :=
  match rest with
  | EmptyString => [seen]
  | String c rest' =>
      (if Ascii.eqb c "/"%char && negb (String.eqb seen "") then [seen] else [])
      ++ leading_dirs (seen +:+ String c EmptyString) rest'
  end.

(** [os.makedirs(path, exist_ok=True)] *)
Definition makedirs (path : string) : Prog unit :=
  syscall_ (sys_makedirs path)
    (fun w => with_dirs (dirs w ∪ list_to_set (leading_dirs "" path)) w).

(** [open(path, 'wb')]: creates the file or truncates it; the handle is
    the path. *)
Definition open_wb (path : string) : Prog string :=
  _ ← syscall_ (sys_open_wb path) (fun w => with_files (<[path := []]> (files w)) w);
  mret path.

(** [f.write(data)] on a handle from [open_wb]: appends at the file
    position, which is the end of the file. *)
Definition file_write (f : string) (data : bytes) : Prog unit :=
  syscall_ (sys_write f)
    (fun w => with_files (<[f := default [] (files w !! f) ++ data]> (files w)) w).

(** [for x in xs: body(x)] *)
Fixpoint for_each {A : Type} (xs : list A) (body : A -> Prog unit) : Prog unit :=
  match xs with
  | [] => mret tt
  | x :: xs' => _ ← body x; for_each xs' body
  end.

(** [try: body  except Exception as e: handler(e)] *)
Definition try_except {A : Type} (body : Prog A) (handler : Exception -> Prog A)
  : Prog A :=
  fun w =>
    match body w with
    | (Return a, w') => (Return a, w')
    | (Raise e, w') => handler e w'
    end.

(** What the interpreter reports to the shell when the script ends: 0,
    or 1 when an exception reached the top. *)
Definition exit_status {A : Type} (r : result A) : Z :=
  match r with
  | Return _ => 0
  | Raise _ => 1
  end.

End OS.

(** ** The driver: [generate_all_icons] and the script's entry point *)

Import OS.

Section Driver.
Context {zlib : Zlib.ZlibModule}.

(** The [densities] dictionary, in insertion order. *)
Definition densities : list (string * Z) :=
  [("mdpi", 48); ("hdpi", 72); ("xhdpi", 96); ("xxhdpi", 144); ("xxxhdpi", 192)].

Definition base_path : string := "app/src/main/res".

Definition nl : string := String (Ascii.ascii_of_nat 10) EmptyString.

Definition rule : string := String.concat "" (replicate 60 "=").

Definition mipmap_dir (density : string) : string :=
  path_join base_path ("mipmap-" +:+ density).

Definition launcher_path (density : string) : string :=
  path_join (mipmap_dir density) "ic_launcher.png".

Definition launcher_round_path (density : string) : string :=
  path_join (mipmap_dir density) "ic_launcher_round.png".

Definition created_message (path : string) (size : Z) : string :=
  "✅ Created " +:+ path +:+ " (" +:+ pretty size +:+ "x" +:+ pretty size +:+ ")".

(** Lines 66-85: the body of the loop over [densities.items()]. *)
Definition generate_icon (entry : string * Z) : Prog unit :=
  let '(density, size) := entry in
  _ ← makedirs (mipmap_dir density);
  png_data ← lift (create_png size size default_bg_color default_text_color);
  f ← open_wb (launcher_path density);
  _ ← file_write f png_data;
  _ ← print (created_message (launcher_path density) size);
  f ← open_wb (launcher_round_path density);
  _ ← file_write f png_data;
  print (created_message (launcher_round_path density) size).

Definition closing_lines : list string :=
  [nl +:+ rule;
   "✨ Icon generation complete!";
   nl +:+ "📝 Note: These are placeholder icons with solid colors.";
   "   For production, use Android Studio's Image Asset Studio:";
   "   Right-click res/ → New → Image Asset";
   nl +:+ "🎯 For now, adaptive icons (Android 8.0+) will use vector drawables";
   "   with the '日' character already configured!"].

(** Lines 50-93. *)
Definition generate_all_icons : Prog unit :=
  _ ← print "🎨 Generating app icons for NihonGo Conversation...";
  _ ← print rule;
  _ ← for_each densities generate_icon;
  for_each closing_lines print.

Definition error_line (e : Exception) : string :=
  "❌ Error: " +:+ str_of_exception e.

Definition remediation_lines : list string :=
  [nl +:+ "💡 Alternative: Use Android Studio's Image Asset Studio";
   "   1. Right-click app/src/main/res";
   "   2. Select New → Image Asset";
   "   3. Choose 'Launcher Icons (Adaptive and Legacy)'";
   "   4. Customize your icon and click 'Next' → 'Finish'"].

(** Lines 95-104: the [if __name__ == '__main__'] block. *)
Definition main : Prog unit :=
  try_except generate_all_icons
    (fun e => _ ← print (error_line e); for_each remediation_lines print).

(** Running the script: the world it leaves and its exit status. *)
Definition run_script (w : World) : World * Z :=
  let '(r, w') := main w in (w', exit_status r).

End Driver.

(** ** The format, as a reader sees it

    These definitions are the yardstick the claims are measured with:
    the chunk layout of the PNG specification and a reader for the
    subset of PNG the script writes (8-bit truecolour, filter type 0,
    one IDAT chunk). *)

Module PNG.

(** An unsigned 32-bit integer, most significant byte first. *)
Definition uint32_be (v : Z) : bytes :=
  [byte_of_Z (v / 16777216 mod 256); byte_of_Z (v / 65536 mod 256);
   byte_of_Z (v / 256 mod 256); byte_of_Z (v mod 256)].

(** The integer a big-endian byte string denotes. *)
Definition uint_of_be (bs : bytes) : Z :=
  fold_left (fun acc b => acc * 256 + Z_of_byte b) bs 0.

(** Chunk layout: length, type, data, CRC over type and data. *)
Definition framed (chunk_type data : bytes) : bytes :=
  uint32_be (Z.of_nat (length data)) ++ chunk_type ++ data
  ++ uint32_be (Zlib.crc32 (chunk_type ++ data)).

(** The payload of IHDR for 8-bit truecolour without interlacing. *)
Definition ihdr_payload (w h : Z) : bytes :=
  uint32_be w ++ uint32_be h ++ [x08; x02; x00; x00; x00].

(** A datastream: signature, IHDR, one IDAT, IEND, and nothing else. *)
Definition datastream (ihdr idat : bytes) : bytes :=
  png_signature
  ++ framed (list_byte_of_string "IHDR") ihdr
  ++ framed (list_byte_of_string "IDAT") idat
  ++ framed (list_byte_of_string "IEND") [].

Record chunk := { chunk_type : bytes; chunk_data : bytes }.

Definition bytes_eqb (a b : bytes) : bool :=
  bool_decide (map Byte.to_N a = map Byte.to_N b).

(** Splits a byte string into chunks, checking every length and CRC.
    Each chunk takes at least 12 bytes, so [fuel] = length of the input
    always suffices. *)
Fixpoint read_chunks (fuel : nat) (input : bytes) : option (list chunk) :=
  match input, fuel with
  | [], _ => Some []
  | _, O => None
  | _, S fuel' =>
      let n := Z.to_nat (uint_of_be (take 4 input)) in
      let ty := take 4 (drop 4 input) in
      let data := take n (drop 8 input) in
      let crc := take 4 (drop (8 + n) input) in
      if (length input <? 12 + n)%nat then None
      else if uint_of_be crc =? Zlib.crc32 (ty ++ data) then
        rest ← read_chunks fuel' (drop (12 + n) input);
        Some ({| chunk_type := ty; chunk_data := data |} :: rest)
      else None
  end.

(** The chunks of a PNG datastream: the signature, then chunks to the end. *)
Definition chunks_of (png : bytes) : option (list chunk) :=
  if bytes_eqb (take 8 png) png_signature
  then read_chunks (length png) (drop 8 png)
  else None.

(** The fields of an IHDR payload. *)
Record header := {
  width : Z;
  height : Z;
  bit_depth : Z;
  color_type : Z;
  compression_method : Z;
  filter_method : Z;
  interlace_method : Z
}.

Definition read_header (data : bytes) : option header :=
  match data with
  | [w3; w2; w1; w0; h3; h2; h1; h0; bd; ct; cm; fm; im] =>
      Some {| width := uint_of_be [w3; w2; w1; w0];
              height := uint_of_be [h3; h2; h1; h0];
              bit_depth := Z_of_byte bd;
              color_type := Z_of_byte ct;
              compression_method := Z_of_byte cm;
              filter_method := Z_of_byte fm;
              interlace_method := Z_of_byte im |}
  | _ => None
  end.

(** A pixel: red, green, blue. *)
Definition pixel : Type := Z * Z * Z.

Fixpoint read_pixels (n : nat) (row : bytes) : option (list pixel) :=
  match n, row with
  | O, [] => Some []
  | S n', r :: g :: b :: rest =>
      ps ← read_pixels n' rest;
      Some ((Z_of_byte r, Z_of_byte g, Z_of_byte b) :: ps)
  | _, _ => None
  end.

(** Scanlines of 8-bit RGB with filter type 0 ("None"): one filter byte,
    then 3 bytes per pixel. *)
Fixpoint read_scanlines (w h : nat) (raw : bytes) : option (list (list pixel)) :=
  match h, raw with
  | O, [] => Some []
  | S h', filter :: rest =>
      if Z_of_byte filter =? 0 then
        row ← read_pixels w (take (3 * w) rest);
        rows ← read_scanlines w h' (drop (3 * w) rest);
        Some (row :: rows)
      else None
  | _, _ => None
  end.

Record image := {
  image_width : Z;
  image_height : Z;
  image_rows : list (list pixel)
}.

Definition is_truecolor8 (h : header) : bool :=
  (bit_depth h =? 8) && (color_type h =? 2) && (compression_method h =? 0)
  && (filter_method h =? 0) && (interlace_method h =? 0).

(** Zero is an invalid value for either dimension. *)
Definition has_pixels (h : header) : bool :=
  (0 <? width h) && (0 <? height h).

(** Reads a datastream made of exactly IHDR, IDAT, IEND. *)
Definition decode {zlib : Zlib.ZlibModule} (png : bytes) : option image :=
  chunks ← chunks_of png;
  match chunks with
  | [ihdr; idat; iend] =>
      if bytes_eqb (chunk_type ihdr) (list_byte_of_string "IHDR")
         && bytes_eqb (chunk_type idat) (list_byte_of_string "IDAT")
         && bytes_eqb (chunk_type iend) (list_byte_of_string "IEND")
         && bytes_eqb (chunk_data iend) []
      then
        h ← read_header (chunk_data ihdr);
        if is_truecolor8 h && has_pixels h then
          raw ← Zlib.decompress (chunk_data idat);
          rows ← read_scanlines (Z.to_nat (width h)) (Z.to_nat (height h)) raw;
          Some {| image_width := width h; image_height := height h;
                  image_rows := rows |}
        else None
      else None
  | _ => None
  end.

(** The raw image buffer of a solid image: per scanline a zero filter
    byte and [w] copies of the colour's bytes. *)
Definition solid_scanline (w : nat) (color : bytes) : bytes :=
  x00 :: concat (replicate w color).

Definition solid_buffer (w h : nat) (color : bytes) : bytes :=
  concat (replicate h (solid_scanline w color)).

End PNG.

(** ** A reference zlib codec

    A conforming implementation of the interface that never compresses:
    the zlib wrapper of RFC 1950 around the stored blocks of RFC 1951.
    It shows that the contract assumed of [zlib] can be met, and serves
    wherever a concrete codec is needed. *)

Module Stored.

Definition adler32_step (s : Z * Z) (x : byte) : Z * Z :=
  let a := (fst s + Z_of_byte x) mod 65521 in (a, (snd s + a) mod 65521).

Definition adler32 (data : bytes) : Z :=
  let s := fold_left adler32_step data (1, 0) in snd s * 65536 + fst s.

(** A 16-bit integer, least significant byte first. *)
Definition uint16_le (v : Z) : bytes :=
  [byte_of_Z (v mod 256); byte_of_Z (v / 256 mod 256)].

Definition uint_of_le16 (lo hi : byte) : Z := Z_of_byte lo + 256 * Z_of_byte hi.

Definition block_limit : Z := 65535.

(** Stored blocks: header byte (BFINAL, BTYPE = 00), LEN, its one's
    complement NLEN, then LEN literal bytes.  [fuel] bounds the number of
    blocks; [S (length data)] always suffices. *)
Fixpoint stored_blocks (fuel : nat) (data : bytes) : bytes :=
  match fuel with
  | O => []
  | S fuel' =>
      if Z.of_nat (length data) <=? block_limit then
        x01 :: uint16_le (Z.of_nat (length data))
            ++ uint16_le (block_limit - Z.of_nat (length data)) ++ data
      else
        x00 :: uint16_le block_limit ++ uint16_le 0
            ++ take (Z.to_nat block_limit) data
            ++ stored_blocks fuel' (drop (Z.to_nat block_limit) data)
  end.

(** The FLG byte zlib writes for a compression level. *)
Definition flg_of_level (level : Z) : byte :=
  if level <? 2 then x01
  else if level <? 6 then x5e
  else if level =? 6 then x9c
  else xda.

Definition compress (data : bytes) (level : Z) : bytes :=
  [x78; flg_of_level level]
  ++ stored_blocks (S (length data)) data
  ++ PNG.uint32_be (adler32 data).

(** Reads stored blocks up to and including the final one; yields the
    literal bytes and the input that follows. *)
Fixpoint inflate_stored (fuel : nat) (input : bytes) : option (bytes * bytes) :=
  match fuel, input with
  | S fuel', hd :: l0 :: l1 :: n0 :: n1 :: rest =>
      let len := uint_of_le16 l0 l1 in
      if (len + uint_of_le16 n0 n1 =? 65535)
         && (len <=? Z.of_nat (length rest)) then
        let literal := take (Z.to_nat len) rest in
        let after := drop (Z.to_nat len) rest in
        if Z_of_byte hd =? 1 then Some (literal, after)
        else if Z_of_byte hd =? 0 then
          r ← inflate_stored fuel' after;
          Some (literal ++ fst r, snd r)
        else None
      else None
  | _, _ => None
  end.

Definition decompress (input : bytes) : option bytes :=
  match input with
  | cmf :: flg :: body =>
      if (Z_of_byte cmf =? 120)
         && ((Z_of_byte cmf * 256 + Z_of_byte flg) mod 31 =? 0)
         && negb (Z.testbit (Z_of_byte flg) 5) then
        r ← inflate_stored (length body) body;
        if (length (snd r) =? 4)%nat && (PNG.uint_of_be (snd r) =? adler32 (fst r))
        then Some (fst r) else None
      else None
  | _ => None
  end.

#[global] Instance codec : Zlib.ZlibModule :=
  {| Zlib.compress := compress; Zlib.decompress := decompress |}.

End Stored.

(** ** Vocabulary of the statements *)

(** The raw image buffer of a [w] x [h] image filled with [bg_color]. *)
Definition image_buffer (w h : Z) (bg_color : list Z) : bytes :=
  PNG.solid_buffer (Z.to_nat w) (Z.to_nat h) (map byte_of_Z bg_color).

(** The body of the outer loop of [build_image_data]. *)
Definition scanline_body (width : Z) (bg_color : list Z) (image_data : bytes)
  : result bytes :=
  image_data ← bytearray_append image_data 0;
  for_in (range width) (fun _ image_data =>
    bytearray_extend image_data bg_color) image_data.

(** No system call of the run meets a fault. *)
Definition fault_free (w : World) : Prop := forall call, fault w call = None.

(** An empty file system, an empty console and no faults. *)
Definition quiet_world : World :=
  {| files := ∅; dirs := ∅; stdout := []; fault := fun _ => None |}.

(** The ten icon files and the edge length of each. *)
Definition expected_icons : list (string * Z) :=
  [("app/src/main/res/mipmap-mdpi/ic_launcher.png", 48);
   ("app/src/main/res/mipmap-mdpi/ic_launcher_round.png", 48);
   ("app/src/main/res/mipmap-hdpi/ic_launcher.png", 72);
   ("app/src/main/res/mipmap-hdpi/ic_launcher_round.png", 72);
   ("app/src/main/res/mipmap-xhdpi/ic_launcher.png", 96);
   ("app/src/main/res/mipmap-xhdpi/ic_launcher_round.png", 96);
   ("app/src/main/res/mipmap-xxhdpi/ic_launcher.png", 144);
   ("app/src/main/res/mipmap-xxhdpi/ic_launcher_round.png", 144);
   ("app/src/main/res/mipmap-xxxhdpi/ic_launcher.png", 192);
   ("app/src/main/res/mipmap-xxxhdpi/ic_launcher_round.png", 192)].

Definition icon_sizes : list Z := [48; 72; 96; 144; 192].

(** A world in which every [os.makedirs] is refused. *)
Definition refusing_world : World :=
  {| files := ∅; dirs := ∅; stdout := [];
     fault := fun call =>
       match call with
       | sys_makedirs _ => Some (OSError "[Errno 13] Permission denied: 'app'")
       | _ => None
       end |}.



Definition opening_lines : list string :=
  ["🎨 Generating app icons for NihonGo Conversation..."; rule].

Section Vocabulary.
Context {zlib : Zlib.ZlibModule}.

(** The inputs on which [create_png] returns: both dimensions fit the
    header's 32-bit fields, every colour value the loop converts is a
    byte, and the compressed data fits the length field of its chunk. *)
Definition encodable (w h : Z) (bg_color : list Z) : Prop :=
  0 <= w < 4294967296 /\ 0 <= h < 4294967296
  /\ (w = 0 \/ h = 0 \/ forallb in_byte_range bg_color = true)
  /\ Z.of_nat (length (Zlib.compress (image_buffer w h bg_color) 9)) < 4294967296.

(** What [create_png size size] returns when it returns. *)
Definition icon_png (size : Z) : bytes :=
  PNG.datastream (PNG.ihdr_payload size size)
    (Zlib.compress (image_buffer size size default_bg_color) 9).

(** The world after one pass of the driver's loop body. *)
Definition icon_written (entry : string * Z) (png : bytes) (w : World) : World :=
  {| files := <[launcher_round_path entry.1 := png]>
                (<[launcher_path entry.1 := png]> (files w));
     dirs := dirs w ∪ list_to_set (leading_dirs "" (mipmap_dir entry.1));
     stdout := stdout w ++ [created_message (launcher_path entry.1) entry.2;
                            created_message (launcher_round_path entry.1) entry.2];
     fault := fault w |}.

Definition icons_written (entries : list (string * Z)) (w : World) : World :=
  foldl (fun w e => icon_written e (icon_png e.2) w) w entries.

(** The world a run without faults leaves behind. *)
Definition after_generation (w : World) : World :=
  let w1 := icons_written densities (with_stdout (stdout w ++ opening_lines) w) in
  with_stdout (stdout w1 ++ closing_lines) w1.

Definition icon_files : list (string * bytes) :=
  map (fun e => (e.1, icon_png e.2)) expected_icons.

(** The loop body as section 2 of the specification words it: the
    encoder is invoked twice per density, once for each file. *)
Definition generate_icon_encoding_twice (entry : string * Z) : Prog unit :=
  let '(density, size) := entry in
  _ ← makedirs (mipmap_dir density);
  png_data ← lift (create_png size size default_bg_color default_text_color);
  f ← open_wb (launcher_path density);
  _ ← file_write f png_data;
  _ ← print (created_message (launcher_path density) size);
  round_data ← lift (create_png size size default_bg_color default_text_color);
  f ← open_wb (launcher_round_path density);
  _ ← file_write f round_data;
  print (created_message (launcher_round_path density) size).

End Vocabulary.

(** ** Vocabulary of the further properties *)

(** [create_chunk] applied to each chunk of a list, the results joined. *)
Fixpoint write_chunks (chunks : list PNG.chunk) : result bytes :=
  match chunks with
  | [] => Return []
  | c :: rest =>
      first ← create_chunk (PNG.chunk_type c) (PNG.chunk_data c);
      others ← write_chunks rest;
      Return (first ++ others)
  end.

(** A chunk [create_chunk] can frame and a reader can tell apart: a
    4-byte type and a payload whose length fits 32 bits. *)
Definition well_sized (c : PNG.chunk) : Prop :=
  length (PNG.chunk_type c) = 4%nat
  /\ Z.of_nat (length (PNG.chunk_data c)) < 4294967296.

(** The IEND chunk: length 0, "IEND", CRC AE 42 60 82. *)
Definition iend_chunk_bytes : bytes :=
  [x00; x00; x00; x00; x49; x45; x4e; x44; xae; x42; x60; x82].

(** [w'] differs from [w] at most by files among [allowed] being written,
    directories being added and lines being printed. *)
Definition only_adds (allowed : list string) (w w' : World) : Prop :=
  fault w' = fault w
  /\ (forall path, path ∉ allowed -> files w' !! path = files w !! path)
  /\ dom (files w) ⊆ dom (files w')
  /\ dirs w ⊆ dirs w'
  /\ stdout w `prefix_of` stdout w'.

(** A statement that does no more than that, from any world and whether
    it returns or raises. *)
Definition keeps_to {A : Type} (allowed : list string) (m : Prog A) : Prop :=
  forall w, only_adds allowed w (m w).2.

(** The directories a run creates. *)
Definition icon_directories : list string :=
  ["app"; "app/src"; "app/src/main"; "app/src/main/res";
   "app/src/main/res/mipmap-mdpi"; "app/src/main/res/mipmap-hdpi";
   "app/src/main/res/mipmap-xhdpi"; "app/src/main/res/mipmap-xxhdpi";
   "app/src/main/res/mipmap-xxxhdpi"].

(** The progress lines of a run, in the order printed. *)
Definition created_lines : list string :=
  ["✅ Created app/src/main/res/mipmap-mdpi/ic_launcher.png (48x48)";
   "✅ Created app/src/main/res/mipmap-mdpi/ic_launcher_round.png (48x48)";
   "✅ Created app/src/main/res/mipmap-hdpi/ic_launcher.png (72x72)";
   "✅ Created app/src/main/res/mipmap-hdpi/ic_launcher_round.png (72x72)";
   "✅ Created app/src/main/res/mipmap-xhdpi/ic_launcher.png (96x96)";
   "✅ Created app/src/main/res/mipmap-xhdpi/ic_launcher_round.png (96x96)";
   "✅ Created app/src/main/res/mipmap-xxhdpi/ic_launcher.png (144x144)";
   "✅ Created app/src/main/res/mipmap-xxhdpi/ic_launcher_round.png (144x144)";
   "✅ Created app/src/main/res/mipmap-xxxhdpi/ic_launcher.png (192x192)";
   "✅ Created app/src/main/res/mipmap-xxxhdpi/ic_launcher_round.png (192x192)"].

(** * Proofs *)

(** ** Bytes and integers *)

Lemma Z_of_byte_range (b : byte) : 0 <= Z_of_byte b < 256.
Proof.
  unfold Z_of_byte. pose proof (Byte.to_N_bounded b). lia.
Qed.

Lemma Z_of_byte_of_Z (z : Z) : 0 <= z < 256 -> Z_of_byte (byte_of_Z z) = z.
Proof.
  intros Hz. unfold Z_of_byte, byte_of_Z.
  rewrite Z.mod_small by lia.
  destruct (Byte.of_N (Z.to_N z)) as [b|] eqn:E.
  - apply Byte.to_of_N in E. rewrite E. lia.
  - apply Byte.of_N_None_iff in E. lia.
Qed.

Lemma in_byte_range_spec (z : Z) : in_byte_range z = true <-> 0 <= z < 256.
Proof. unfold in_byte_range. rewrite andb_true_iff, Z.leb_le, Z.ltb_lt. tauto. Qed.

Lemma big_endian_4 (v : Z) : Struct.big_endian 4 v = PNG.uint32_be v.
Proof.
  unfold PNG.uint32_be. simpl.
  change 255 with (Z.ones 8).
  rewrite !Z.land_ones by lia.
  rewrite !Z.shiftr_div_pow2 by lia.
  rewrite !Z.div_div by lia.
  reflexivity.
Qed.

Lemma uint_of_be_uint32 (v : Z) :
  0 <= v < 4294967296 -> PNG.uint_of_be (PNG.uint32_be v) = v.
Proof.
  intros Hv. unfold PNG.uint_of_be, PNG.uint32_be. simpl.
  rewrite !Z_of_byte_of_Z by (apply Z.mod_pos_bound; lia).
  Z.to_euclidean_division_equations. lia.
Qed.

Lemma uint32_be_length (v : Z) : length (PNG.uint32_be v) = 4%nat.
Proof. reflexivity. Qed.

(** ** [struct.pack] *)

Lemma pack_one_uint32 (v : Z) :
  0 <= v < 4294967296 -> Struct.pack_one Struct.fmt_I v = Return (PNG.uint32_be v).
Proof.
  intros Hv. unfold Struct.pack_one. cbn [Struct.format_max Struct.format_size].
  destruct (Z.ltb_spec v 0); [lia|].
  destruct (Z.leb_spec v 4294967295); [|lia].
  rewrite big_endian_4. reflexivity.
Qed.

Lemma pack_one_uint32_too_large (v : Z) :
  4294967296 <= v ->
  Struct.pack_one Struct.fmt_I v = Raise (struct_error (Struct.range_message Struct.fmt_I)).
Proof.
  intros Hv. unfold Struct.pack_one. cbn [Struct.format_max Struct.format_size].
  destruct (Z.ltb_spec v 0); [lia|].
  destruct (Z.leb_spec v 4294967295); [lia|reflexivity].
Qed.

Lemma pack_one_uint32_negative (v : Z) :
  v < 0 ->
  Struct.pack_one Struct.fmt_I v
  = Raise (struct_error (Struct.negative_message Struct.fmt_I)).
Proof.
  intros Hv. unfold Struct.pack_one.
  destruct (Z.ltb_spec v 0); [reflexivity|lia].
Qed.

Lemma pack_one_uint32_raises (v : Z) :
  ~ 0 <= v < 4294967296 ->
  exists msg, Struct.pack_one Struct.fmt_I v = Raise (struct_error msg).
Proof.
  intros Hv. destruct (Z_lt_ge_dec v 0) as [Hneg|Hpos].
  - eexists. apply pack_one_uint32_negative, Hneg.
  - eexists. apply pack_one_uint32_too_large. lia.
Qed.

Lemma pack_uint32 (v : Z) :
  0 <= v < 4294967296 -> Struct.pack [Struct.fmt_I] [v] = Return (PNG.uint32_be v).
Proof.
  intros Hv. unfold Struct.pack. cbn [length Nat.eqb Struct.pack_all].
  rewrite pack_one_uint32 by exact Hv. cbn [mbind result_bind].
  rewrite app_nil_r. reflexivity.
Qed.

Lemma pack_uint32_too_large (v : Z) :
  4294967296 <= v ->
  Struct.pack [Struct.fmt_I] [v] = Raise (struct_error (Struct.range_message Struct.fmt_I)).
Proof.
  intros Hv. unfold Struct.pack. cbn [length Nat.eqb Struct.pack_all].
  rewrite pack_one_uint32_too_large by exact Hv. reflexivity.
Qed.

(** ** [zlib.crc32] stays within 32 bits *)

Lemma lxor_uint32 (a b : Z) :
  0 <= a < 4294967296 -> 0 <= b < 4294967296 -> 0 <= Z.lxor a b < 4294967296.
Proof.
  intros Ha Hb.
  assert (Hnn : 0 <= Z.lxor a b) by (apply Z.lxor_nonneg; lia).
  split; [exact Hnn|].
  destruct (Z.eq_dec (Z.lxor a b) 0) as [->|Hne]; [lia|].
  change 4294967296 with (2 ^ 32). apply Z.log2_lt_pow2; [lia|].
  pose proof (Z.log2_lxor a b ltac:(lia) ltac:(lia)) as Hl.
  assert (Z.log2 a < 32).
  { destruct (Z.eq_dec a 0) as [->|]; [cbn; lia|]. apply Z.log2_lt_pow2; lia. }
  assert (Z.log2 b < 32).
  { destruct (Z.eq_dec b 0) as [->|]; [cbn; lia|]. apply Z.log2_lt_pow2; lia. }
  lia.
Qed.

Lemma crc32_step_range (c : Z) :
  0 <= c < 4294967296 -> 0 <= Zlib.crc32_step c < 4294967296.
Proof.
  intros Hc. unfold Zlib.crc32_step.
  assert (Hs : 0 <= Z.shiftr c 1 < 4294967296).
  { rewrite Z.shiftr_div_pow2 by lia. change (2 ^ 1) with 2.
    Z.to_euclidean_division_equations. lia. }
  destruct (Z.testbit c 0); [|exact Hs].
  apply lxor_uint32; [exact Hs|]. unfold Zlib.crc32_polynomial. lia.
Qed.

Lemma crc32_update_range (c : Z) (b : byte) :
  0 <= c < 4294967296 -> 0 <= Zlib.crc32_update c b < 4294967296.
Proof.
  intros Hc. unfold Zlib.crc32_update.
  assert (H0 : 0 <= Z.lxor c (Z_of_byte b) < 4294967296).
  { apply lxor_uint32; [exact Hc|]. pose proof (Z_of_byte_range b). lia. }
  revert H0. generalize (Z.lxor c (Z_of_byte b)), 8%nat. intros x n Hx.
  induction n as [|n IH]; [exact Hx|].
  cbn [Nat.iter nat_rect]. apply crc32_step_range, IH.
Qed.

Lemma crc32_register_range (data : bytes) (c : Z) :
  0 <= c < 4294967296 -> 0 <= fold_left Zlib.crc32_update data c < 4294967296.
Proof.
  revert c. induction data as [|b data IH]; intros c Hc; [exact Hc|].
  cbn [fold_left]. apply IH, crc32_update_range, Hc.
Qed.

Lemma crc32_range (data : bytes) : 0 <= Zlib.crc32 data < 4294967296.
Proof.
  unfold Zlib.crc32. apply lxor_uint32; [|lia].
  apply crc32_register_range. lia.
Qed.

Lemma crc32_mask (data : bytes) :
  Z.land (Zlib.crc32 data) 4294967295 = Zlib.crc32 data.
Proof.
  change 4294967295 with (Z.ones 32).
  rewrite Z.land_ones by lia. apply Z.mod_small, crc32_range.
Qed.

Section EncoderFacts.
Context {zlib : Zlib.ZlibModule}.

Lemma create_chunk_framed (chunk_type data : bytes) :
  Z.of_nat (length data) < 4294967296 ->
  create_chunk chunk_type data = Return (PNG.framed chunk_type data).
Proof.
  intros Hlen. unfold create_chunk, PNG.framed.
  rewrite (pack_uint32 (Z.of_nat (length data))) by lia. cbn [mbind result_bind].
  change 0xffffffff with 4294967295. rewrite crc32_mask.
  rewrite pack_uint32 by apply crc32_range. reflexivity.
Qed.

Lemma create_chunk_too_long (chunk_type data : bytes) :
  4294967296 <= Z.of_nat (length data) ->
  create_chunk chunk_type data
  = Raise (struct_error (Struct.range_message Struct.fmt_I)).
Proof.
  intros Hlen. unfold create_chunk.
  rewrite (pack_uint32_too_large (Z.of_nat (length data))) by lia. reflexivity.
Qed.

Lemma bytearray_extend_ok (buf : bytes) (color : list Z) :
  forallb in_byte_range color = true ->
  bytearray_extend buf color = Return (buf ++ map byte_of_Z color).
Proof. intros Hc. unfold bytearray_extend. rewrite Hc. reflexivity. Qed.

Lemma bytearray_append_zero (buf : bytes) :
  bytearray_append buf 0 = Return (buf ++ [x00]).
Proof. reflexivity. Qed.

(** The inner loop: [width] times [image_data.extend(bg_color)]. *)
Lemma extend_loop {A : Type} (xs : list A) (color : list Z) (buf : bytes) :
  forallb in_byte_range color = true ->
  for_in xs (fun _ image_data => bytearray_extend image_data color) buf
  = Return (buf ++ concat (replicate (length xs) (map byte_of_Z color))).
Proof.
  intros Hc. revert buf. induction xs as [|x xs IH]; intros buf; cbn [for_in].
  - cbn. rewrite app_nil_r. reflexivity.
  - rewrite bytearray_extend_ok by exact Hc. cbn [mbind result_bind].
    rewrite IH. cbn [length replicate concat]. rewrite <- app_assoc. reflexivity.
Qed.

Lemma extend_loop_raises {A : Type} (x : A) (xs : list A) (color : list Z) (buf : bytes) :
  forallb in_byte_range color = false ->
  for_in (x :: xs) (fun _ image_data => bytearray_extend image_data color) buf
  = Raise (ValueError byte_range_message).
Proof.
  intros Hc. cbn [for_in]. unfold bytearray_extend. rewrite Hc. reflexivity.
Qed.

Lemma scanline_body_ok (width : Z) (bg_color : list Z) (buf : bytes) :
  width <= 0 \/ forallb in_byte_range bg_color = true ->
  scanline_body width bg_color buf
  = Return (buf ++ PNG.solid_scanline (Z.to_nat width) (map byte_of_Z bg_color)).
Proof.
  intros H. unfold scanline_body. rewrite bytearray_append_zero.
  cbn [mbind result_bind]. unfold PNG.solid_scanline.
  destruct H as [Hw | Hc].
  - unfold range. replace (Z.to_nat width) with O by lia.
    rewrite seqZ_nil by lia. cbn. reflexivity.
  - rewrite extend_loop by exact Hc. unfold range. rewrite length_seqZ.
    rewrite <- app_assoc. reflexivity.
Qed.

Lemma scanline_body_raises (width : Z) (bg_color : list Z) (buf : bytes) :
  0 < width -> forallb in_byte_range bg_color = false ->
  scanline_body width bg_color buf = Raise (ValueError byte_range_message).
Proof.
  intros Hw Hc. unfold scanline_body. rewrite bytearray_append_zero.
  cbn [mbind result_bind].
  unfold range. rewrite (seqZ_cons 0 width) by lia.
  apply extend_loop_raises, Hc.
Qed.

Lemma scanline_loop_ok {A : Type} (ys : list A) (width : Z) (bg_color : list Z) (buf : bytes) :
  width <= 0 \/ forallb in_byte_range bg_color = true ->
  for_in ys (fun _ image_data => scanline_body width bg_color image_data) buf
  = Return (buf ++ PNG.solid_buffer (Z.to_nat width) (length ys) (map byte_of_Z bg_color)).
Proof.
  intros H. revert buf. induction ys as [|y ys IH]; intros buf; cbn [for_in].
  - cbn. rewrite app_nil_r. reflexivity.
  - rewrite scanline_body_ok by exact H. cbn [mbind result_bind].
    rewrite IH. unfold PNG.solid_buffer. cbn [length replicate concat].
    rewrite <- app_assoc. reflexivity.
Qed.

Lemma build_image_data_ok (width height : Z) (bg_color : list Z) :
  width <= 0 \/ height <= 0 \/ forallb in_byte_range bg_color = true ->
  build_image_data width height bg_color
  = Return (PNG.solid_buffer (Z.to_nat width) (Z.to_nat height) (map byte_of_Z bg_color)).
Proof.
  intros H. unfold build_image_data. fold (scanline_body width bg_color).
  destruct (Z_le_gt_dec height 0) as [Hh | Hh].
  - unfold range. rewrite seqZ_nil by lia. replace (Z.to_nat height) with O by lia.
    reflexivity.
  - change (fun (_ : Z) (image_data : bytes) => scanline_body width bg_color image_data)
      with (fun (_ : Z) image_data => scanline_body width bg_color image_data).
    rewrite scanline_loop_ok by (destruct H as [|[|]]; [left|lia|right]; assumption).
    unfold range. rewrite length_seqZ. reflexivity.
Qed.

Lemma build_image_data_raises (width height : Z) (bg_color : list Z) :
  0 < width -> 0 < height -> forallb in_byte_range bg_color = false ->
  build_image_data width height bg_color = Raise (ValueError byte_range_message).
Proof.
  intros Hw Hh Hc. unfold build_image_data. fold (scanline_body width bg_color).
  unfold range. rewrite (seqZ_cons 0 height) by lia. cbn [for_in].
  rewrite scanline_body_raises by assumption. reflexivity.
Qed.

End EncoderFacts.

(** ** Reading back what was written *)

Lemma bytes_eqb_refl (a : bytes) : PNG.bytes_eqb a a = true.
Proof. unfold PNG.bytes_eqb. apply bool_decide_eq_true. reflexivity. Qed.

Lemma read_chunks_step (fuel : nat) (input : bytes) :
  input <> [] ->
  PNG.read_chunks (S fuel) input =
    let n := Z.to_nat (PNG.uint_of_be (take 4 input)) in
    let ty := take 4 (drop 4 input) in
    let data := take n (drop 8 input) in
    let crc := take 4 (drop (8 + n) input) in
    if (length input <? 12 + n)%nat then None
    else if PNG.uint_of_be crc =? Zlib.crc32 (ty ++ data) then
      rest ← PNG.read_chunks fuel (drop (12 + n) input);
      Some ({| PNG.chunk_type := ty; PNG.chunk_data := data |} :: rest)
    else None.
Proof. destruct input; [congruence|reflexivity]. Qed.

Lemma chunk_layout (a b c d rest : bytes) (n : nat) :
  length a = 4%nat -> length b = 4%nat -> length c = n -> length d = 4%nat ->
  let input := a ++ b ++ c ++ d ++ rest in
  take 4 input = a /\ take 4 (drop 4 input) = b /\ take n (drop 8 input) = c
  /\ take 4 (drop (8 + n) input) = d /\ drop (12 + n) input = rest.
Proof.
  intros Ha Hb Hc Hd input. subst input.
  assert (H4 : drop 4 (a ++ b ++ c ++ d ++ rest) = b ++ c ++ d ++ rest)
    by (apply drop_app_length'; lia).
  assert (H8 : drop 8 (a ++ b ++ c ++ d ++ rest) = c ++ d ++ rest).
  { change 8%nat with (4 + 4)%nat. rewrite <- drop_drop, H4.
    apply drop_app_length'; lia. }
  assert (H8n : drop (8 + n) (a ++ b ++ c ++ d ++ rest) = d ++ rest).
  { rewrite <- drop_drop, H8. apply drop_app_length'; lia. }
  repeat split.
  - apply take_app_length'; lia.
  - rewrite H4. apply take_app_length'; lia.
  - rewrite H8. apply take_app_length'; lia.
  - rewrite H8n. apply take_app_length'; lia.
  - replace (12 + n)%nat with ((8 + n) + 4)%nat by lia.
    rewrite <- drop_drop, H8n. apply drop_app_length'; lia.
Qed.

Lemma read_chunks_framed (fuel : nat) (ty data rest : bytes) :
  length ty = 4%nat -> Z.of_nat (length data) < 4294967296 ->
  PNG.read_chunks (S fuel) (PNG.framed ty data ++ rest) =
    (more ← PNG.read_chunks fuel rest;
     Some ({| PNG.chunk_type := ty; PNG.chunk_data := data |} :: more)).
Proof.
  intros Hty Hlen.
  rewrite read_chunks_step by (unfold PNG.framed, PNG.uint32_be; discriminate).
  unfold PNG.framed. rewrite <- !app_assoc.
  set (input := _ ++ _).
  destruct (chunk_layout (PNG.uint32_be (Z.of_nat (length data))) ty data
              (PNG.uint32_be (Zlib.crc32 (ty ++ data))) rest (length data))
    as (E1 & E2 & E3 & E4 & E5); try reflexivity; try assumption.
  fold input in E1, E2, E3, E4, E5.
  cbv zeta. rewrite E1. rewrite uint_of_be_uint32 by lia. rewrite Nat2Z.id.
  rewrite E2, E3, E4, E5.
  rewrite uint_of_be_uint32 by apply crc32_range. rewrite Z.eqb_refl.
  replace (length input <? 12 + length data)%nat with false; [reflexivity|].
  symmetry. apply Nat.ltb_ge. subst input.
  rewrite !length_app, !uint32_be_length. lia.
Qed.

Lemma read_chunks_nil (fuel : nat) : PNG.read_chunks fuel [] = Some [].
Proof. destruct fuel; reflexivity. Qed.

Lemma chunks_of_datastream (ihdr idat : bytes) :
  Z.of_nat (length ihdr) < 4294967296 -> Z.of_nat (length idat) < 4294967296 ->
  PNG.chunks_of (PNG.datastream ihdr idat)
  = Some [ {| PNG.chunk_type := list_byte_of_string "IHDR"; PNG.chunk_data := ihdr |};
           {| PNG.chunk_type := list_byte_of_string "IDAT"; PNG.chunk_data := idat |};
           {| PNG.chunk_type := list_byte_of_string "IEND"; PNG.chunk_data := [] |} ].
Proof.
  intros Hh Hd. unfold PNG.chunks_of, PNG.datastream.
  change (take 8 (png_signature ++ ?l)) with png_signature.
  rewrite bytes_eqb_refl.
  change (drop 8 (png_signature ++ ?l)) with l.
  set (body := PNG.framed _ ihdr ++ _).
  assert (Hfuel : exists k, length (png_signature ++ body) = S (S (S k))).
  { exists (5 + length body)%nat. reflexivity. }
  destruct Hfuel as [k ->]. subst body.
  rewrite read_chunks_framed by (reflexivity || assumption).
  rewrite read_chunks_framed by (reflexivity || assumption).
  rewrite <- (app_nil_r (PNG.framed _ [])).
  rewrite read_chunks_framed by (reflexivity || (cbn; lia)).
  rewrite read_chunks_nil. reflexivity.
Qed.

Lemma pack_ihdr (w h : Z) :
  0 <= w < 4294967296 -> 0 <= h < 4294967296 ->
  Struct.pack ihdr_format [w; h; 8; 2; 0; 0; 0] = Return (PNG.ihdr_payload w h).
Proof.
  intros Hw Hh. unfold Struct.pack, ihdr_format. cbn [length Nat.eqb Struct.pack_all].
  rewrite !pack_one_uint32 by assumption. reflexivity.
Qed.

Lemma pack_ihdr_raises (w h : Z) :
  ~ (0 <= w < 4294967296 /\ 0 <= h < 4294967296) ->
  exists msg,
    Struct.pack ihdr_format [w; h; 8; 2; 0; 0; 0] = Raise (struct_error msg).
Proof.
  intros Hn. unfold Struct.pack, ihdr_format. cbn [length Nat.eqb Struct.pack_all].
  destruct (decide (0 <= w < 4294967296)) as [Hw|Hw].
  - rewrite (pack_one_uint32 w) by assumption.
    destruct (pack_one_uint32_raises h ltac:(tauto)) as [msg ->].
    exists msg. reflexivity.
  - destruct (pack_one_uint32_raises w Hw) as [msg ->].
    exists msg. reflexivity.
Qed.

Lemma pack_ihdr_height_too_large (w h : Z) :
  0 <= w < 4294967296 -> 4294967296 <= h ->
  Struct.pack ihdr_format [w; h; 8; 2; 0; 0; 0]
  = Raise (struct_error (Struct.range_message Struct.fmt_I)).
Proof.
  intros Hw Hh. unfold Struct.pack, ihdr_format. cbn [length Nat.eqb Struct.pack_all].
  rewrite (pack_one_uint32 w) by assumption.
  rewrite (pack_one_uint32_too_large h) by assumption. reflexivity.
Qed.

Lemma ihdr_payload_length (w h : Z) : length (PNG.ihdr_payload w h) = 13%nat.
Proof. reflexivity. Qed.

Lemma bind_Return {A B : Type} (f : A -> result B) (a : A) :
  mbind f (Return a) = f a.
Proof. reflexivity. Qed.

Lemma bind_Raise {A B : Type} (f : A -> result B) (e : Exception) :
  mbind f (Raise e) = Raise e.
Proof. reflexivity. Qed.

Section CreatePng.
Context {zlib : Zlib.ZlibModule}.

Lemma create_png_encodable (w h : Z) (bg_color text_color : list Z) :
  encodable w h bg_color ->
  create_png w h bg_color text_color
  = Return (PNG.datastream (PNG.ihdr_payload w h)
              (Zlib.compress (image_buffer w h bg_color) 9)).
Proof.
  intros (Hw & Hh & Hc & Hfit). unfold create_png.
  rewrite pack_ihdr, bind_Return by assumption.
  rewrite (create_chunk_framed _ (PNG.ihdr_payload w h)), bind_Return
    by (rewrite ihdr_payload_length; lia).
  rewrite build_image_data_ok, bind_Return
    by (destruct Hc as [|[|]]; [left; lia|right; left; lia|tauto]).
  rewrite (create_chunk_framed _ (Zlib.compress _ _)), bind_Return by exact Hfit.
  rewrite (create_chunk_framed _ []), bind_Return by (cbn [length]; lia).
  reflexivity.
Qed.

Lemma create_png_not_encodable (w h : Z) (bg_color text_color : list Z) :
  ~ encodable w h bg_color ->
  exists e, create_png w h bg_color text_color = Raise e.
Proof.
  intros Hn. unfold create_png.
  destruct (decide (0 <= w < 4294967296 /\ 0 <= h < 4294967296)) as [[Hw Hh]|Hr].
  2:{ destruct (pack_ihdr_raises w h Hr) as [msg ->]. eexists. reflexivity. }
  rewrite pack_ihdr, bind_Return by assumption.
  rewrite (create_chunk_framed _ (PNG.ihdr_payload w h)), bind_Return
    by (rewrite ihdr_payload_length; lia).
  assert (Hlong : (w = 0 \/ h = 0 \/ forallb in_byte_range bg_color = true) ->
    4294967296 <= Z.of_nat (length (Zlib.compress (image_buffer w h bg_color) 9))).
  { intros Hc.
    destruct (Z_lt_dec (Z.of_nat (length (Zlib.compress (image_buffer w h bg_color) 9)))
                4294967296) as [Hfit|Hfit]; [|lia].
    exfalso. apply Hn. unfold encodable. tauto. }
  destruct (forallb in_byte_range bg_color) eqn:Hc.
  - rewrite build_image_data_ok, bind_Return by tauto.
    rewrite (create_chunk_too_long _ (Zlib.compress _ _)), bind_Raise by tauto.
    eexists. reflexivity.
  - destruct (decide (w = 0 \/ h = 0)) as [Hz|Hz].
    + rewrite build_image_data_ok, bind_Return by lia.
      rewrite (create_chunk_too_long _ (Zlib.compress _ _)), bind_Raise by tauto.
      eexists. reflexivity.
    + rewrite build_image_data_raises, bind_Raise by (assumption || lia).
      eexists. reflexivity.
Qed.

End CreatePng.

Lemma read_header_ihdr (w h : Z) :
  0 <= w < 4294967296 -> 0 <= h < 4294967296 ->
  PNG.read_header (PNG.ihdr_payload w h)
  = Some {| PNG.width := w; PNG.height := h; PNG.bit_depth := 8;
            PNG.color_type := 2; PNG.compression_method := 0;
            PNG.filter_method := 0; PNG.interlace_method := 0 |}.
Proof.
  intros Hw Hh.
  rewrite <- (uint_of_be_uint32 w Hw) at 2.
  rewrite <- (uint_of_be_uint32 h Hh) at 2.
  reflexivity.
Qed.

Lemma solid_row_length (n : nat) (r g b : byte) :
  length (concat (replicate n [r; g; b])) = (3 * n)%nat.
Proof.
  induction n as [|n IH]; [reflexivity|].
  cbn [replicate concat]. rewrite length_app, IH. cbn [length]. lia.
Qed.

Lemma read_pixels_solid (n : nat) (r g b : byte) :
  PNG.read_pixels n (concat (replicate n [r; g; b]))
  = Some (replicate n (Z_of_byte r, Z_of_byte g, Z_of_byte b)).
Proof.
  induction n as [|n IH]; [reflexivity|].
  cbn [replicate concat app PNG.read_pixels]. rewrite IH. reflexivity.
Qed.

Lemma read_scanlines_solid (w h : nat) (r g b : byte) :
  PNG.read_scanlines w h (PNG.solid_buffer w h [r; g; b])
  = Some (replicate h (replicate w (Z_of_byte r, Z_of_byte g, Z_of_byte b))).
Proof.
  unfold PNG.solid_buffer.
  induction h as [|h IH]; [reflexivity|].
  cbn [replicate concat]. unfold PNG.solid_scanline at 1.
  cbn [app PNG.read_scanlines].
  change (Z_of_byte x00 =? 0) with true. cbv iota.
  rewrite take_app_length' by (rewrite solid_row_length; reflexivity).
  rewrite drop_app_length' by (rewrite solid_row_length; reflexivity).
  rewrite read_pixels_solid, IH. reflexivity.
Qed.

Lemma solid_buffer_length (w h : nat) (color : bytes) :
  length (PNG.solid_buffer w h color) = (h * (1 + length color * w))%nat.
Proof.
  unfold PNG.solid_buffer.
  assert (Hrow : length (PNG.solid_scanline w color) = (1 + length color * w)%nat).
  { unfold PNG.solid_scanline. cbn [length]. f_equal.
    induction w as [|w IH]; [cbn; lia|].
    cbn [replicate concat]. rewrite length_app, IH. lia. }
  induction h as [|h IH]; [reflexivity|].
  cbn [replicate concat]. rewrite length_app, IH, Hrow. lia.
Qed.

Section Decode.
Context {zlib : Zlib.ZlibModule}.

Lemma decode_datastream (w h : Z) (idat raw : bytes) (rows : list (list PNG.pixel)) :
  0 < w < 4294967296 -> 0 < h < 4294967296 ->
  Z.of_nat (length idat) < 4294967296 ->
  Zlib.decompress idat = Some raw ->
  PNG.read_scanlines (Z.to_nat w) (Z.to_nat h) raw = Some rows ->
  PNG.decode (PNG.datastream (PNG.ihdr_payload w h) idat)
  = Some {| PNG.image_width := w; PNG.image_height := h; PNG.image_rows := rows |}.
Proof.
  intros Hw Hh Hlen Hz Hrows. unfold PNG.decode.
  rewrite chunks_of_datastream by (rewrite ?ihdr_payload_length; lia).
  cbn [mbind option_bind PNG.chunk_type PNG.chunk_data].
  rewrite !bytes_eqb_refl. cbn [andb].
  rewrite read_header_ihdr by lia.
  unfold PNG.has_pixels.
  cbn [mbind option_bind PNG.width PNG.height PNG.is_truecolor8 PNG.bit_depth
       PNG.color_type PNG.compression_method PNG.filter_method PNG.interlace_method
       Z.eqb andb].
  rewrite (proj2 (Z.ltb_lt 0 w)), (proj2 (Z.ltb_lt 0 h)) by lia. cbn [andb].
  rewrite Hz. cbn [mbind option_bind]. rewrite Hrows. reflexivity.
Qed.

End Decode.

(** ** The reference codec meets the contract *)

Lemma uint_of_le16_uint16 (v : Z) :
  0 <= v < 65536 ->
  Stored.uint_of_le16 (byte_of_Z (v mod 256)) (byte_of_Z (v / 256 mod 256)) = v.
Proof.
  intros Hv. unfold Stored.uint_of_le16.
  rewrite !Z_of_byte_of_Z by (apply Z.mod_pos_bound; lia).
  Z.to_euclidean_division_equations. lia.
Qed.

Lemma adler32_state_range (data : bytes) (s : Z * Z) :
  0 <= fst s < 65521 -> 0 <= snd s < 65521 ->
  0 <= fst (fold_left Stored.adler32_step data s) < 65521
  /\ 0 <= snd (fold_left Stored.adler32_step data s) < 65521.
Proof.
  revert s. induction data as [|x data IH]; intros s Ha Hb; [tauto|].
  cbn [fold_left]. apply IH; unfold Stored.adler32_step; cbn [fst snd];
    apply Z.mod_pos_bound; lia.
Qed.

Lemma adler32_range (data : bytes) : 0 <= Stored.adler32 data < 4294967296.
Proof.
  unfold Stored.adler32.
  pose proof (adler32_state_range data (1, 0)
                ltac:(cbn [fst]; lia) ltac:(cbn [snd]; lia)) as [Ha Hb].
  cbv zeta. lia.
Qed.

Lemma stored_blocks_final (fuel : nat) (data : bytes) :
  Z.of_nat (length data) <= 65535 ->
  Stored.stored_blocks (S fuel) data
  = x01 :: Stored.uint16_le (Z.of_nat (length data))
        ++ Stored.uint16_le (65535 - Z.of_nat (length data)) ++ data.
Proof.
  intros H. cbn [Stored.stored_blocks]. unfold Stored.block_limit.
  destruct (Z.leb_spec (Z.of_nat (length data)) 65535); [reflexivity|lia].
Qed.

Lemma stored_blocks_more (fuel : nat) (data : bytes) :
  65535 < Z.of_nat (length data) ->
  Stored.stored_blocks (S fuel) data
  = x00 :: Stored.uint16_le 65535 ++ Stored.uint16_le 0
        ++ take (Z.to_nat 65535) data
        ++ Stored.stored_blocks fuel (drop (Z.to_nat 65535) data).
Proof.
  intros H. cbn [Stored.stored_blocks]. unfold Stored.block_limit.
  destruct (Z.leb_spec (Z.of_nat (length data)) 65535); [lia|reflexivity].
Qed.

Lemma inflate_stored_block (fuel : nat) (hd : byte) (len : Z) (literal rest : bytes) :
  0 <= len < 65536 -> Z.of_nat (length literal) = len ->
  Stored.inflate_stored (S fuel)
    (hd :: Stored.uint16_le len ++ Stored.uint16_le (65535 - len) ++ literal ++ rest)
  = if Z_of_byte hd =? 1 then Some (literal, rest)
    else if Z_of_byte hd =? 0 then
      r ← Stored.inflate_stored fuel rest; Some (literal ++ fst r, snd r)
    else None.
Proof.
  intros Hlen Hlit. unfold Stored.uint16_le. cbn [app Stored.inflate_stored].
  rewrite !uint_of_le16_uint16 by lia.
  replace (len + (65535 - len) =? 65535) with true by (symmetry; apply Z.eqb_eq; lia).
  replace (len <=? Z.of_nat (length (literal ++ rest))) with true
    by (symmetry; apply Z.leb_le; rewrite length_app; lia).
  cbn [andb].
  rewrite take_app_length' by lia. rewrite drop_app_length' by lia.
  reflexivity.
Qed.

Lemma inflate_stored_blocks (f1 : nat) :
  forall (f2 : nat) (data trailer : bytes),
    (length data < f1)%nat -> (length data < f2)%nat ->
    Stored.inflate_stored f2 (Stored.stored_blocks f1 data ++ trailer)
    = Some (data, trailer).
Proof.
  induction f1 as [|f1 IH]; intros f2 data trailer H1 H2; [lia|].
  destruct f2 as [|f2]; [lia|].
  destruct (Z_le_gt_dec (Z.of_nat (length data)) 65535) as [Hs|Hl].
  - rewrite stored_blocks_final by exact Hs.
    cbn [app]. rewrite <- !app_assoc.
    rewrite inflate_stored_block by lia. reflexivity.
  - rewrite stored_blocks_more by lia.
    cbn [app]. rewrite <- !app_assoc.
    change (Stored.uint16_le 0) with (Stored.uint16_le (65535 - 65535)).
    rewrite inflate_stored_block by (rewrite ?length_take; lia).
    change (Z_of_byte x00 =? 1) with false. change (Z_of_byte x00 =? 0) with true.
    cbv iota.
    rewrite IH by (rewrite length_drop; lia).
    cbn [mbind option_bind fst snd]. rewrite take_drop. reflexivity.
Qed.

Lemma stored_blocks_length (f1 : nat) :
  forall data : bytes,
    (length data < f1)%nat ->
    Z.of_nat (length data) + 5 <= Z.of_nat (length (Stored.stored_blocks f1 data))
    /\ Z.of_nat (length (Stored.stored_blocks f1 data))
       <= Z.of_nat (length data) + 5 * (Z.of_nat (length data) / 65535 + 1).
Proof.
  induction f1 as [|f1 IH]; intros data H1; [lia|].
  destruct (Z_le_gt_dec (Z.of_nat (length data)) 65535) as [Hs|Hl].
  - rewrite stored_blocks_final by exact Hs.
    cbn [length]. rewrite !length_app. cbn [Stored.uint16_le length].
    assert (0 <= Z.of_nat (length data) / 65535) by (apply Z.div_pos; lia). lia.
  - rewrite stored_blocks_more by lia.
    cbn [length]. rewrite !length_app. cbn [Stored.uint16_le length].
    rewrite length_take.
    specialize (IH (drop (Z.to_nat 65535) data)).
    rewrite length_drop in IH. specialize (IH ltac:(lia)).
    replace (Z.of_nat (length data) / 65535)
      with ((Z.of_nat (length data) - 65535) / 65535 + 1)
      by (Z.to_euclidean_division_equations; lia).
    replace (Z.of_nat (length data - Z.to_nat 65535))
      with (Z.of_nat (length data) - 65535) in IH by lia.
    lia.
Qed.

Lemma stored_compress_length (data : bytes) (level : Z) :
  Z.of_nat (length (Stored.compress data level))
  <= Z.of_nat (length data) + 5 * (Z.of_nat (length data) / 65535 + 1) + 6.
Proof.
  unfold Stored.compress. cbn [app length]. rewrite length_app, uint32_be_length.
  pose proof (stored_blocks_length (S (length data)) data ltac:(lia)). lia.
Qed.

Lemma stored_header_ok (level : Z) :
  (Z_of_byte x78 =? 120)
  && ((Z_of_byte x78 * 256 + Z_of_byte (Stored.flg_of_level level)) mod 31 =? 0)
  && negb (Z.testbit (Z_of_byte (Stored.flg_of_level level)) 5) = true.
Proof.
  unfold Stored.flg_of_level.
  destruct (level <? 2); [reflexivity|].
  destruct (level <? 6); [reflexivity|].
  destruct (level =? 6); reflexivity.
Qed.

Lemma stored_lossless : Zlib.lossless Stored.codec.
Proof.
  intros data level. cbn [Zlib.decompress Zlib.compress Stored.codec].
  unfold Stored.compress, Stored.decompress. cbn [app].
  rewrite stored_header_ok.
  pose proof (stored_blocks_length (S (length data)) data ltac:(lia)) as [Hlo _].
  rewrite inflate_stored_blocks by (rewrite ?length_app; lia).
  cbn [mbind option_bind fst snd].
  rewrite uint32_be_length, Nat.eqb_refl.
  rewrite uint_of_be_uint32 by apply adler32_range.
  rewrite Z.eqb_refl. reflexivity.
Qed.

Lemma prog_bind_unfold {A B : Type} (f : A -> Prog B) (m : Prog A) (w : World) :
  mbind (M := Prog) f m w =
    match m w with
    | (Return a, w') => f a w'
    | (Raise e, w') => (Raise e, w')
    end.
Proof. reflexivity. Qed.

Lemma syscall_ok (call : syscall) (effect : World -> World) (w : World) :
  fault w call = None -> syscall_ call effect w = (Return tt, effect w).
Proof. intros H. unfold syscall_. rewrite H. reflexivity. Qed.

Section DriverFacts.
Context {zlib : Zlib.ZlibModule}.

Lemma generate_icon_ok (entry : string * Z) (png : bytes) (w : World) :
  fault_free w ->
  create_png entry.2 entry.2 default_bg_color default_text_color = Return png ->
  generate_icon entry w = (Return tt, icon_written entry png w).
Proof.
  intros Hf Hpng. destruct entry as [density size]. cbn [fst snd] in *.
  unfold generate_icon. rewrite Hpng.
  unfold makedirs, open_wb, file_write, print, lift.
  repeat (rewrite !prog_bind_unfold; rewrite ?syscall_ok by apply Hf;
          cbn [mret prog_ret]).
  unfold icon_written, with_files, with_dirs, with_stdout.
  cbn [files dirs stdout fault fst snd].
  rewrite !lookup_insert_eq. cbn [default from_option id app].
  rewrite !insert_insert_eq. rewrite <- !app_assoc. reflexivity.
Qed.

Lemma for_each_generate_icon (entries : list (string * Z)) (w : World) :
  fault_free w ->
  Forall (fun e => encodable e.2 e.2 default_bg_color) entries ->
  for_each entries generate_icon w = (Return tt, icons_written entries w).
Proof.
  intros Hf He. revert w Hf.
  induction He as [|e entries He _ IH]; intros w Hf; [reflexivity|].
  cbn [for_each]. rewrite prog_bind_unfold.
  rewrite (generate_icon_ok e (icon_png e.2)) by
    (try assumption; apply create_png_encodable, He).
  rewrite IH; [reflexivity|]. intros call. apply Hf.
Qed.

Lemma print_ok (line : string) (w : World) :
  fault w (sys_print line) = None ->
  print line w = (Return tt, with_stdout (stdout w ++ [line]) w).
Proof. intros H. unfold print, syscall_. rewrite H. reflexivity. Qed.


Lemma with_stdout_same (w : World) : with_stdout (stdout w ++ []) w = w.
Proof. rewrite app_nil_r. destruct w; reflexivity. Qed.

Lemma for_each_print (lines : list string) (w : World) :
  (forall line, line ∈ lines -> fault w (sys_print line) = None) ->
  for_each lines print w = (Return tt, with_stdout (stdout w ++ lines) w).
Proof.
  revert w. induction lines as [|l lines IH]; intros w Hf.
  - cbn [for_each mret prog_ret]. rewrite with_stdout_same. reflexivity.
  - cbn [for_each]. rewrite prog_bind_unfold.
    rewrite print_ok by (apply Hf; left).
    rewrite IH by (intros line Hl; apply Hf; right; exact Hl).
    unfold with_stdout. cbn [files dirs stdout fault].
    rewrite <- app_assoc. reflexivity.
Qed.


Lemma generate_all_icons_ok (w : World) :
  fault_free w ->
  Forall (fun e => encodable e.2 e.2 default_bg_color) densities ->
  generate_all_icons w = (Return tt, after_generation w).
Proof.
  intros Hf He. unfold generate_all_icons.
  rewrite prog_bind_unfold, print_ok by apply Hf.
  rewrite prog_bind_unfold, print_ok by apply Hf.
  rewrite prog_bind_unfold.
  rewrite for_each_generate_icon; [|intros call; apply Hf|exact He].
  rewrite for_each_print by (intros line _; apply Hf).
  unfold after_generation, opening_lines.
  unfold with_stdout at 3 4. cbn [files dirs stdout fault].
  rewrite <- app_assoc. reflexivity.
Qed.

End DriverFacts.

Lemma expected_icons_NoDup : NoDup expected_icons.*1.
Proof. apply (bool_decide_unpack _). vm_compute. exact I. Qed.

Section Files.
Context {zlib : Zlib.ZlibModule}.

Lemma icon_files_keys : icon_files.*1 = expected_icons.*1.
Proof. reflexivity. Qed.

Lemma foldl_insert_pairs (l : list (string * bytes)) (m : gmap string bytes) :
  foldl (fun m p => <[p.1 := p.2]> m) m l = list_to_map (reverse l) ∪ m.
Proof.
  revert m. induction l as [|p l IH]; intros m.
  - cbn. rewrite (left_id_L ∅ (∪)). reflexivity.
  - cbn [foldl]. rewrite IH, reverse_cons, list_to_map_app.
    cbn [list_to_map foldr]. rewrite <- (assoc_L (∪)).
    rewrite <- insert_union_l, (left_id_L ∅ (∪)). reflexivity.
Qed.

Lemma files_after_generation (w : World) :
  files (after_generation w) = list_to_map icon_files ∪ files w.
Proof.
  transitivity (foldl (fun m p => <[p.1 := p.2]> m) (files w) icon_files).
  - reflexivity.
  - rewrite foldl_insert_pairs.
    rewrite (list_to_map_proper (reverse icon_files) icon_files);
      [reflexivity| |apply reverse_Permutation].
    rewrite fmap_reverse, reverse_Permutation, icon_files_keys.
    apply expected_icons_NoDup.
Qed.

End Files.

(** * The claims *)

Section Claims.
Context {zlib : Zlib.ZlibModule}.

Lemma encodable_dec (w h : Z) (bg_color : list Z) :
  {encodable w h bg_color} + {~ encodable w h bg_color}.
Proof.
  unfold encodable.
  destruct (decide (0 <= w < 4294967296)); [|right; tauto].
  destruct (decide (0 <= h < 4294967296)); [|right; tauto].
  destruct (decide (w = 0 \/ h = 0 \/ forallb in_byte_range bg_color = true));
    [|right; tauto].
  destruct (Z_lt_dec (Z.of_nat (length (Zlib.compress (image_buffer w h bg_color) 9)))
              4294967296); [left|right]; tauto.
Qed.

Lemma create_png_returns (w h : Z) (bg_color text_color : list Z) (out : bytes) :
  create_png w h bg_color text_color = Return out ->
  encodable w h bg_color
  /\ out = PNG.datastream (PNG.ihdr_payload w h)
             (Zlib.compress (image_buffer w h bg_color) 9).
Proof.
  intros Hout. destruct (encodable_dec w h bg_color) as [He|Hn].
  - split; [exact He|]. rewrite (create_png_encodable _ _ _ _ He) in Hout.
    congruence.
  - destruct (create_png_not_encodable w h bg_color text_color Hn) as [e He].
    congruence.
Qed.

Lemma triple_in_range (r g b : Z) :
  0 <= r < 256 -> 0 <= g < 256 -> 0 <= b < 256 ->
  forallb in_byte_range [r; g; b] = true.
Proof.
  intros Hr Hg Hb. cbn [forallb].
  rewrite !(proj2 (in_byte_range_spec _)) by assumption. reflexivity.
Qed.

Lemma decode_solid_png (w h r g b : Z) :
  0 < w -> 0 < h -> 0 <= r < 256 -> 0 <= g < 256 -> 0 <= b < 256 ->
  encodable w h [r; g; b] -> Zlib.lossless zlib ->
  PNG.decode (PNG.datastream (PNG.ihdr_payload w h)
                (Zlib.compress (image_buffer w h [r; g; b]) 9))
  = Some {| PNG.image_width := w; PNG.image_height := h;
            PNG.image_rows :=
              replicate (Z.to_nat h) (replicate (Z.to_nat w) (r, g, b)) |}.
Proof.
  intros Hw Hh Hr Hg Hb (Hwr & Hhr & _ & Hfit) Hloss.
  apply (decode_datastream w h _ (image_buffer w h [r; g; b])); try assumption;
    try lia.
  - apply Hloss.
  - unfold image_buffer. cbn [map]. rewrite read_scanlines_solid.
    rewrite !Z_of_byte_of_Z by assumption. reflexivity.
Qed.

(** Claim C1.  For every width > 0, height > 0 and every colour triple of
    bytes, the loop of [create_png] builds exactly [height] scanlines, each
    a filter byte 0 followed by [width] copies of the three colour bytes,
    so the buffer has height * (1 + 3 * width) bytes.  Whenever
    [create_png] returns, its output splits into IHDR, IDAT and IEND, the
    IDAT payload decompresses (zlib being lossless) to that buffer, and a
    reader finds every pixel equal to the requested colour.  It does return
    on every encodable input. *)
Theorem create_png_solid_pixels (w h r g b : Z) (text_color : list Z) :
  0 < w -> 0 < h -> 0 <= r < 256 -> 0 <= g < 256 -> 0 <= b < 256 ->
  let scanline :=
    x00 :: concat (replicate (Z.to_nat w) [byte_of_Z r; byte_of_Z g; byte_of_Z b]) in
  let raw := concat (replicate (Z.to_nat h) scanline) in
  build_image_data w h [r; g; b] = Return raw
  /\ Z.of_nat (length raw) = h * (1 + 3 * w)
  /\ (forall out,
        create_png w h [r; g; b] text_color = Return out ->
        Zlib.lossless zlib ->
        exists idat,
          PNG.chunks_of out
          = Some [ {| PNG.chunk_type := list_byte_of_string "IHDR";
                      PNG.chunk_data := PNG.ihdr_payload w h |};
                   {| PNG.chunk_type := list_byte_of_string "IDAT";
                      PNG.chunk_data := idat |};
                   {| PNG.chunk_type := list_byte_of_string "IEND";
                      PNG.chunk_data := [] |} ]
          /\ Zlib.decompress idat = Some raw
          /\ PNG.decode out
             = Some {| PNG.image_width := w; PNG.image_height := h;
                       PNG.image_rows :=
                         replicate (Z.to_nat h) (replicate (Z.to_nat w) (r, g, b)) |})
  /\ (encodable w h [r; g; b] ->
      exists out, create_png w h [r; g; b] text_color = Return out).
Proof.
  intros Hw Hh Hr Hg Hb scanline raw.
  assert (Hc : forallb in_byte_range [r; g; b] = true) by (apply triple_in_range; assumption).
  assert (Hraw : raw = image_buffer w h [r; g; b]) by reflexivity.
  split; [|split; [|split]].
  - rewrite Hraw. apply build_image_data_ok. tauto.
  - rewrite Hraw. unfold image_buffer. rewrite solid_buffer_length.
    cbn [map length]. rewrite Nat2Z.inj_mul, Nat2Z.inj_add, Nat2Z.inj_mul.
    rewrite !Z2Nat.id by lia. reflexivity.
  - intros out Hout Hloss.
    apply create_png_returns in Hout as [He ->].
    exists (Zlib.compress (image_buffer w h [r; g; b]) 9).
    split; [|split].
    + destruct He as (Hwr & Hhr & _ & Hfit).
      apply chunks_of_datastream; [rewrite ihdr_payload_length; lia|exact Hfit].
    + rewrite Hraw. apply Hloss.
    + apply decode_solid_png; assumption.
  - intros He. eexists. apply create_png_encodable, He.
Qed.

(** Claim C3.  [create_png] returns [out] exactly when the input is
    encodable and [out] is the 8-byte signature, the IHDR chunk, one IDAT
    chunk holding the zlib compression at level 9 of the raw image buffer,
    and an IEND chunk with empty payload, in this order and with nothing
    before, between or after them. *)
Theorem create_png_structure (w h : Z) (bg_color text_color : list Z) (out : bytes) :
  create_png w h bg_color text_color = Return out <->
  encodable w h bg_color
  /\ out = png_signature
           ++ PNG.framed (list_byte_of_string "IHDR") (PNG.ihdr_payload w h)
           ++ PNG.framed (list_byte_of_string "IDAT")
                (Zlib.compress (image_buffer w h bg_color) Zlib.best_compression)
           ++ PNG.framed (list_byte_of_string "IEND") [].
Proof.
  split.
  - apply create_png_returns.
  - intros [He ->]. apply create_png_encodable, He.
Qed.

End Claims.

Lemma stored_encodable (w h : Z) (bg_color : list Z) :
  0 <= w < 4294967296 -> 0 <= h < 4294967296 ->
  w = 0 \/ h = 0 \/ forallb in_byte_range bg_color = true ->
  Z.of_nat (length (image_buffer w h bg_color)) < 4294000000 ->
  encodable (zlib := Stored.codec) w h bg_color.
Proof.
  intros Hw Hh Hc Hlen. unfold encodable. repeat split; try lia; try assumption.
  cbn [Zlib.compress Stored.codec].
  pose proof (stored_compress_length (image_buffer w h bg_color) 9) as Hb.
  assert (Z.of_nat (length (image_buffer w h bg_color)) / 65535 <= 65524)
    by (Z.to_euclidean_division_equations; lia).
  lia.
Qed.

(** A 2 x 3 image of the default colour, with the reference codec. *)
Lemma create_png_solid_pixels_witness :
  exists out,
    create_png (zlib := Stored.codec) 2 3 [255; 107; 107] default_text_color = Return out
    /\ PNG.decode (zlib := Stored.codec) out
       = Some {| PNG.image_width := 2; PNG.image_height := 3;
                 PNG.image_rows := replicate 3 (replicate 2 (255, 107, 107)) |}.
Proof.
  destruct (create_png_solid_pixels (zlib := Stored.codec) 2 3 255 107 107
              default_text_color ltac:(lia) ltac:(lia) ltac:(lia) ltac:(lia) ltac:(lia))
    as (_ & _ & Hdecode & Hreturns).
  destruct Hreturns as [out Hout].
  { apply stored_encodable; [lia|lia|right; right; reflexivity|vm_compute; reflexivity]. }
  exists out. split; [exact Hout|].
  destruct (Hdecode out Hout stored_lossless) as (idat & _ & _ & Himage).
  exact Himage.
Defined.

(** The characterisation at a 1 x 1 image, with the reference codec. *)
Lemma create_png_structure_witness :
  create_png (zlib := Stored.codec) 1 1 [255; 107; 107] default_text_color
  = Return (png_signature
            ++ PNG.framed (list_byte_of_string "IHDR") (PNG.ihdr_payload 1 1)
            ++ PNG.framed (list_byte_of_string "IDAT")
                 (Stored.compress [x00; xff; x6b; x6b] 9)
            ++ PNG.framed (list_byte_of_string "IEND") []).
Proof.
  apply (proj2 (create_png_structure (zlib := Stored.codec) 1 1 [255; 107; 107]
                  default_text_color _)).
  split; [|reflexivity].
  apply stored_encodable; [lia|lia|right; right; reflexivity|vm_compute; reflexivity].
Defined.

(** Claim C2, as amended.  For a 4-byte type and a payload of fewer than
    2^32 bytes, [create_chunk] returns the big-endian 32-bit length of the
    payload, the type, the payload and the big-endian 32-bit CRC-32 of type
    and payload; the two fields decode to the payload's length and to that
    CRC, and a chunk reader accepts the result.  For a payload of 2^32
    bytes or more it raises [struct.error]. *)
Theorem create_chunk_framing (chunk_type data : bytes) :
  length chunk_type = 4%nat ->
  (Z.of_nat (length data) < 4294967296 ->
   let crc := Zlib.crc32 (chunk_type ++ data) in
   create_chunk chunk_type data
   = Return (PNG.uint32_be (Z.of_nat (length data)) ++ chunk_type ++ data
             ++ PNG.uint32_be crc)
   /\ PNG.uint_of_be (PNG.uint32_be (Z.of_nat (length data))) = Z.of_nat (length data)
   /\ PNG.uint_of_be (PNG.uint32_be crc) = crc
   /\ PNG.read_chunks 1 (PNG.framed chunk_type data)
      = Some [ {| PNG.chunk_type := chunk_type; PNG.chunk_data := data |} ])
  /\ (4294967296 <= Z.of_nat (length data) ->
      create_chunk chunk_type data
      = Raise (struct_error "'I' format requires 0 <= number <= 4294967295")).
Proof.
  intros Hty. split.
  - intros Hlen crc. split; [|split; [|split]].
    + apply create_chunk_framed, Hlen.
    + apply uint_of_be_uint32. lia.
    + apply uint_of_be_uint32, crc32_range.
    + rewrite <- (app_nil_r (PNG.framed chunk_type data)).
      rewrite read_chunks_framed by assumption. reflexivity.
  - apply create_chunk_too_long.
Qed.

(** The empty IEND chunk: 00 00 00 00, "IEND", AE 42 60 82. *)
Lemma create_chunk_framing_witness :
  create_chunk (list_byte_of_string "IEND") []
  = Return [x00; x00; x00; x00; x49; x45; x4e; x44; xae; x42; x60; x82].
Proof.
  destruct (create_chunk_framing (list_byte_of_string "IEND") [] eq_refl) as [Hok _].
  destruct (Hok ltac:(cbn; lia)) as [Hchunk _].
  rewrite Hchunk. vm_compute. reflexivity.
Defined.

(** Claim C2 as first stated fails for a payload of 2^32 zero bytes:
    its length has no 32-bit encoding, and [create_chunk] raises instead of
    returning a chunk. *)
Lemma create_chunk_payload_too_long :
  let data := replicate (Z.to_nat 4294967296) x00 in
  create_chunk (list_byte_of_string "IDAT") data
  = Raise (struct_error "'I' format requires 0 <= number <= 4294967295")
  /\ create_chunk (list_byte_of_string "IDAT") data
     <> Return (PNG.framed (list_byte_of_string "IDAT") data).
Proof.
  intros data.
  assert (H : create_chunk (list_byte_of_string "IDAT") data
              = Raise (struct_error "'I' format requires 0 <= number <= 4294967295")).
  { apply create_chunk_too_long. subst data.
    rewrite length_replicate, Z2Nat.id; lia. }
  split; [exact H|]. rewrite H. discriminate.
Qed.

Lemma solid_buffer_no_pixels (w h : nat) (color : bytes) :
  w = O \/ h = O -> PNG.solid_buffer w h color = replicate h x00.
Proof.
  intros [-> | ->]; [|reflexivity].
  unfold PNG.solid_buffer, PNG.solid_scanline. cbn [replicate concat].
  induction h as [|h IH]; [reflexivity|].
  cbn [replicate concat app]. rewrite IH. reflexivity.
Qed.

Section Claims2.
Context {zlib : Zlib.ZlibModule}.

(** Claim C4.  For width and height in the range of the header's 32-bit
    fields, the IHDR payload packed by [create_png] is the 13 bytes: width
    and height as big-endian 32-bit integers, then 8, 2, 0, 0, 0 (bit
    depth, colour type, compression, filter and interlace method); a reader
    finds these seven values in it; it is framed under the type IHDR.  On
    every encodable input [create_png] returns, and in whatever it returns
    that chunk follows the signature: a reader finds it as the first
    chunk. *)
Theorem ihdr_chunk_layout (w h : Z) (bg_color text_color : list Z) :
  0 <= w < 4294967296 -> 0 <= h < 4294967296 ->
  let payload := PNG.uint32_be w ++ PNG.uint32_be h ++ [x08; x02; x00; x00; x00] in
  Struct.pack ihdr_format [w; h; 8; 2; 0; 0; 0] = Return payload
  /\ length payload = 13%nat
  /\ PNG.read_header payload
     = Some {| PNG.width := w; PNG.height := h; PNG.bit_depth := 8;
               PNG.color_type := 2; PNG.compression_method := 0;
               PNG.filter_method := 0; PNG.interlace_method := 0 |}
  /\ create_chunk (list_byte_of_string "IHDR") payload
     = Return (PNG.framed (list_byte_of_string "IHDR") payload)
  /\ (forall out,
        create_png w h bg_color text_color = Return out ->
        exists rest,
          out = png_signature ++ PNG.framed (list_byte_of_string "IHDR") payload ++ rest)
  /\ (encodable w h bg_color ->
      exists out rest later,
        create_png w h bg_color text_color = Return out
        /\ out = png_signature ++ PNG.framed (list_byte_of_string "IHDR") payload ++ rest
        /\ PNG.chunks_of out
           = Some ({| PNG.chunk_type := list_byte_of_string "IHDR";
                      PNG.chunk_data := payload |} :: later)).
Proof.
  intros Hw Hh payload.
  change payload with (PNG.ihdr_payload w h).
  split; [|split; [|split; [|split; [|split]]]].
  - apply pack_ihdr; assumption.
  - apply ihdr_payload_length.
  - apply read_header_ihdr; assumption.
  - apply create_chunk_framed. rewrite ihdr_payload_length. lia.
  - intros out Hout. apply create_png_returns in Hout as [_ ->].
    eexists. reflexivity.
  - intros He. do 3 eexists.
    split; [apply create_png_encodable, He|].
    split; [reflexivity|].
    apply chunks_of_datastream; [rewrite ihdr_payload_length; lia|].
    destruct He as (_ & _ & _ & Hfit). exact Hfit.
Qed.

(** Claim C9.  The outcome of [create_png] does not depend on
    [text_color]: any two values give the same result, byte for byte (and
    the same exception when it raises).  The default of the parameter is
    (33, 150, 243). *)
Theorem create_png_ignores_text_color (w h : Z) (bg_color t1 t2 : list Z) :
  create_png w h bg_color t1 = create_png w h bg_color t2
  /\ default_text_color = [33; 150; 243].
Proof. split; reflexivity. Qed.

(** Claim C10, as amended.  For width = 0 or height = 0, both dimensions
    in [0, 2^32) and a compressed buffer shorter than 2^32 bytes,
    [create_png] returns, whatever the colour: the output splits into
    IHDR, IDAT and IEND with correct lengths and CRCs, the header records
    both dimensions, and the IDAT payload decompresses to exactly [height]
    filter bytes of value 0 and no pixel data.  A dimension of 2^32 or
    more makes [create_png] raise [struct.error], whatever the other
    arguments. *)
Theorem create_png_zero_dimension (w h : Z) (bg_color text_color : list Z) :
  (w = 0 \/ h = 0 ->
   0 <= w < 4294967296 -> 0 <= h < 4294967296 ->
   Z.of_nat (length (Zlib.compress (replicate (Z.to_nat h) x00) Zlib.best_compression))
     < 4294967296 ->
   Zlib.lossless zlib ->
   exists out idat,
     create_png w h bg_color text_color = Return out
     /\ PNG.chunks_of out
        = Some [ {| PNG.chunk_type := list_byte_of_string "IHDR";
                    PNG.chunk_data := PNG.ihdr_payload w h |};
                 {| PNG.chunk_type := list_byte_of_string "IDAT";
                    PNG.chunk_data := idat |};
                 {| PNG.chunk_type := list_byte_of_string "IEND";
                    PNG.chunk_data := [] |} ]
     /\ PNG.read_header (PNG.ihdr_payload w h)
        = Some {| PNG.width := w; PNG.height := h; PNG.bit_depth := 8;
                  PNG.color_type := 2; PNG.compression_method := 0;
                  PNG.filter_method := 0; PNG.interlace_method := 0 |}
     /\ Zlib.decompress idat = Some (replicate (Z.to_nat h) x00))
  /\ (4294967296 <= w \/ 4294967296 <= h ->
      exists msg, create_png w h bg_color text_color = Raise (struct_error msg)).
Proof.
  split.
  - intros Hz Hw Hh Hfit Hloss.
    assert (Hbuf : image_buffer w h bg_color = replicate (Z.to_nat h) x00).
    { unfold image_buffer. apply solid_buffer_no_pixels. lia. }
    assert (He : encodable w h bg_color).
    { unfold encodable. rewrite Hbuf.
      split; [lia|]. split; [lia|]. split; [tauto|exact Hfit]. }
    exists (PNG.datastream (PNG.ihdr_payload w h)
              (Zlib.compress (replicate (Z.to_nat h) x00) 9)),
           (Zlib.compress (replicate (Z.to_nat h) x00) 9).
    split; [|split; [|split]].
    + rewrite <- Hbuf. apply create_png_encodable, He.
    + apply chunks_of_datastream; [rewrite ihdr_payload_length; lia|exact Hfit].
    + apply read_header_ihdr; assumption.
    + apply Hloss.
  - intros Hbig. unfold create_png.
    destruct (pack_ihdr_raises w h ltac:(lia)) as [msg ->].
    exists msg. reflexivity.
Qed.

End Claims2.

(** Width 0 and height 2, with the reference codec: two filter bytes. *)
Lemma create_png_zero_dimension_witness :
  exists out idat,
    create_png (zlib := Stored.codec) 0 2 [255; 107; 107] default_text_color = Return out
    /\ PNG.chunks_of out
       = Some [ {| PNG.chunk_type := list_byte_of_string "IHDR";
                   PNG.chunk_data := PNG.ihdr_payload 0 2 |};
                {| PNG.chunk_type := list_byte_of_string "IDAT";
                   PNG.chunk_data := idat |};
                {| PNG.chunk_type := list_byte_of_string "IEND";
                   PNG.chunk_data := [] |} ]
    /\ Stored.decompress idat = Some [x00; x00].
Proof.
  destruct (proj1 (create_png_zero_dimension (zlib := Stored.codec) 0 2 [255; 107; 107]
                     default_text_color)
              (or_introl eq_refl) ltac:(lia) ltac:(lia)
              ltac:(vm_compute; reflexivity) stored_lossless)
    as (out & idat & Hout & Hchunks & _ & Hraw).
  exists out, idat. split; [exact Hout|]. split; [exact Hchunks|exact Hraw].
Defined.

(** Claim C10 as first stated fails for width 0 and height 2^32, a
    non-negative dimension: the header cannot hold it and [struct.pack]
    raises before any chunk is built. *)
Lemma create_png_zero_width_height_too_large :
  create_png (zlib := Stored.codec) 0 4294967296 default_bg_color default_text_color
  = Raise (struct_error "'I' format requires 0 <= number <= 4294967295").
Proof.
  unfold create_png. rewrite pack_ihdr_height_too_large by lia. reflexivity.
Qed.

(** The 48 x 48 icon with the reference codec: [create_png] returns, and
    its output continues after the signature with the IHDR chunk. *)
Lemma ihdr_chunk_layout_witness :
  exists out rest,
    create_png (zlib := Stored.codec) 48 48 default_bg_color default_text_color
    = Return out
    /\ out = png_signature
             ++ PNG.framed (list_byte_of_string "IHDR")
                  [x00; x00; x00; x30; x00; x00; x00; x30; x08; x02; x00; x00; x00]
             ++ rest.
Proof.
  destruct (ihdr_chunk_layout (zlib := Stored.codec) 48 48 default_bg_color
              default_text_color ltac:(lia) ltac:(lia))
    as (_ & _ & _ & _ & _ & Hreturns).
  destruct Hreturns as (out & rest & later & Hout & Hshape & _).
  { apply stored_encodable; [lia|lia|right; right; reflexivity|].
    unfold image_buffer. rewrite solid_buffer_length. vm_compute. reflexivity. }
  exists out, rest. split; [exact Hout|exact Hshape].
Defined.

Lemma expected_icon_sizes (path : string) (size : Z) :
  (path, size) ∈ expected_icons -> size ∈ icon_sizes /\ 0 < size < 4294967296.
Proof.
  unfold expected_icons, icon_sizes. intros H.
  repeat (apply elem_of_cons in H as [H|H]; [inversion H; subst; split; [set_solver|lia]|]).
  apply elem_of_nil in H. contradiction.
Qed.

Section DriverClaims.
Context {zlib : Zlib.ZlibModule}.

Lemma densities_encodable :
  Forall (fun size => encodable size size default_bg_color) icon_sizes ->
  Forall (fun e : string * Z => encodable e.2 e.2 default_bg_color) densities.
Proof.
  intros H. apply (Forall_fmap snd (fun size => encodable size size default_bg_color)).
  exact H.
Qed.

Lemma decode_icon_png (size : Z) :
  0 < size -> encodable size size default_bg_color -> Zlib.lossless zlib ->
  PNG.decode (icon_png size)
  = Some {| PNG.image_width := size; PNG.image_height := size;
            PNG.image_rows :=
              replicate (Z.to_nat size) (replicate (Z.to_nat size) (255, 107, 107)) |}.
Proof.
  intros Hs He Hloss.
  apply (decode_solid_png size size 255 107 107); try assumption; lia.
Qed.

(** Claim C6.  In a run whose system calls all succeed, and with a zlib
    that is lossless and whose output for the five buffers fits a chunk,
    [generate_all_icons] completes and leaves exactly the ten files of
    [expected_icons] written (ten distinct paths, two per density; every
    other file is untouched).  Each holds what [create_png size size]
    returns for its density's size, and a reader decodes it to a size x
    size image of the default colour. *)
Theorem driver_creates_ten_icons (w : World) :
  fault_free w ->
  Forall (fun size => encodable size size default_bg_color) [48; 72; 96; 144; 192] ->
  Zlib.lossless zlib ->
  exists w',
    generate_all_icons w = (Return tt, w')
    /\ length expected_icons = 10%nat
    /\ NoDup expected_icons.*1
    /\ dom (files w') = dom (files w) ∪ list_to_set expected_icons.*1
    /\ (forall path, path ∉ expected_icons.*1 -> files w' !! path = files w !! path)
    /\ forall path size,
         (path, size) ∈ expected_icons ->
         exists png,
           files w' !! path = Some png
           /\ create_png size size default_bg_color default_text_color = Return png
           /\ PNG.decode png
              = Some {| PNG.image_width := size; PNG.image_height := size;
                        PNG.image_rows :=
                          replicate (Z.to_nat size)
                            (replicate (Z.to_nat size) (255, 107, 107)) |}.
Proof.
  intros Hf He Hloss. exists (after_generation w).
  split; [apply generate_all_icons_ok; [exact Hf|apply densities_encodable, He]|].
  split; [reflexivity|]. split; [apply expected_icons_NoDup|].
  rewrite files_after_generation.
  split; [|split].
  - rewrite dom_union_L, dom_list_to_map_L, icon_files_keys. apply (comm_L (∪)).
  - intros path Hpath. rewrite lookup_union_r; [reflexivity|].
    apply not_elem_of_list_to_map_1. rewrite icon_files_keys. exact Hpath.
  - intros path size Hin. exists (icon_png size).
    destruct (expected_icon_sizes path size Hin) as [Hsize Hpos].
    assert (Hen : encodable size size default_bg_color).
    { rewrite Forall_forall in He. apply He, Hsize. }
    split; [|split].
    + apply lookup_union_Some_l, elem_of_list_to_map_1.
      * rewrite icon_files_keys. apply expected_icons_NoDup.
      * unfold icon_files.
        apply (list_elem_of_fmap_2 (fun e : string * Z => (e.1, icon_png e.2)) _ _ Hin).
    + apply create_png_encodable, Hen.
    + apply decode_icon_png; [lia|exact Hen|exact Hloss].
Qed.

End DriverClaims.

Lemma quiet_world_fault_free : fault_free quiet_world.
Proof. intros call. reflexivity. Qed.

Lemma stored_icon_sizes_encodable :
  Forall (fun size => encodable (zlib := Stored.codec) size size default_bg_color)
    [48; 72; 96; 144; 192].
Proof.
  assert (H : forall size, 0 < size <= 192 ->
            encodable (zlib := Stored.codec) size size default_bg_color).
  { intros size Hs.
    apply stored_encodable; [lia|lia|right; right; reflexivity|].
    unfold image_buffer. rewrite solid_buffer_length.
    cbn [default_bg_color map length].
    rewrite Nat2Z.inj_mul, Nat2Z.inj_add, Nat2Z.inj_mul, !Z2Nat.id by lia.
    change (Z.of_nat 1) with 1. change (Z.of_nat 3) with 3. nia. }
  repeat (apply Forall_cons_2; [apply H; lia|]). apply Forall_nil_2.
Qed.

Section DriverClaims2.
Context {zlib : Zlib.ZlibModule}.

Lemma generate_icon_twice_same (entry : string * Z) (w : World) :
  generate_icon_encoding_twice entry w = generate_icon entry w.
Proof.
  destruct entry as [density size].
  unfold generate_icon_encoding_twice, generate_icon.
  rewrite !prog_bind_unfold.
  destruct (makedirs (mipmap_dir density) w) as [[[]|e] w1]; [|reflexivity].
  rewrite !prog_bind_unfold. unfold lift at 1 3.
  destruct (create_png size size default_bg_color default_text_color) as [png|e];
    [|reflexivity].
  rewrite !prog_bind_unfold.
  destruct (open_wb (launcher_path density) w1) as [[f|e] w2]; [|reflexivity].
  rewrite !prog_bind_unfold.
  destruct (file_write f png w2) as [[[]|e] w3]; [|reflexivity].
  rewrite !prog_bind_unfold.
  destruct (print (created_message (launcher_path density) size) w3)
    as [[[]|e] w4]; [|reflexivity].
  rewrite !prog_bind_unfold. reflexivity.
Qed.

(** Claim C7.  Invoking the encoder a second time for the round icon
    changes nothing: the loop body that does so is the loop body of the
    source.  After a run whose system calls all succeed, ic_launcher.png
    and ic_launcher_round.png of every density hold the same bytes, namely
    what [create_png size size] returns for that density's size. *)
Theorem launcher_and_round_icons_identical :
  (forall entry w, generate_icon_encoding_twice entry w = generate_icon entry w)
  /\ forall (w : World) (density : string) (size : Z),
       fault_free w ->
       Forall (fun size => encodable size size default_bg_color) [48; 72; 96; 144; 192] ->
       (density, size) ∈ densities ->
       exists w' png,
         generate_all_icons w = (Return tt, w')
         /\ create_png size size default_bg_color default_text_color = Return png
         /\ files w' !! launcher_path density = Some png
         /\ files w' !! launcher_round_path density = Some png.
Proof.
  split; [apply generate_icon_twice_same|].
  intros w density size Hf He Hin.
  exists (after_generation w), (icon_png size).
  assert (Hfiles : forall path, (path, size) ∈ expected_icons ->
            files (after_generation w) !! path = Some (icon_png size)).
  { intros path Hp. rewrite files_after_generation.
    apply lookup_union_Some_l, elem_of_list_to_map_1.
    - rewrite icon_files_keys. apply expected_icons_NoDup.
    - apply (list_elem_of_fmap_2 (fun e : string * Z => (e.1, icon_png e.2)) _ _ Hp). }
  split; [apply generate_all_icons_ok; [exact Hf|apply densities_encodable, He]|].
  split.
  - apply create_png_encodable.
    rewrite Forall_forall in He. apply He.
    apply (list_elem_of_fmap_2 snd) in Hin. exact Hin.
  - unfold densities in Hin.
    repeat (apply elem_of_cons in Hin as [Hin|Hin];
            [inversion Hin; subst; split; apply Hfiles;
             unfold expected_icons; set_solver|]).
    apply elem_of_nil in Hin. contradiction.
Qed.

Lemma handler_for_each (e : Exception) (w : World) :
  (_ ← print (error_line e); for_each remediation_lines print) w
  = for_each (error_line e :: remediation_lines) print w.
Proof. reflexivity. Qed.


End DriverClaims2.

(** A run from an empty file system, with the reference codec: the files
    present afterwards are the ten icons. *)
Lemma driver_creates_ten_icons_witness :
  exists w',
    generate_all_icons (zlib := Stored.codec) quiet_world = (Return tt, w')
    /\ dom (files w') = list_to_set expected_icons.*1.
Proof.
  destruct (driver_creates_ten_icons (zlib := Stored.codec) quiet_world
              quiet_world_fault_free stored_icon_sizes_encodable stored_lossless)
    as (w' & Hrun & _ & _ & Hdom & _).
  exists w'. split; [exact Hrun|].
  rewrite Hdom. cbn [files quiet_world]. rewrite dom_empty_L.
  apply (left_id_L ∅ (∪)).
Defined.

(** The two mdpi icons after a run from an empty file system. *)
Lemma launcher_and_round_icons_identical_witness :
  exists w' png,
    generate_all_icons (zlib := Stored.codec) quiet_world = (Return tt, w')
    /\ files w' !! "app/src/main/res/mipmap-mdpi/ic_launcher.png" = Some png
    /\ files w' !! "app/src/main/res/mipmap-mdpi/ic_launcher_round.png" = Some png.
Proof.
  destruct (proj2 (launcher_and_round_icons_identical (zlib := Stored.codec))
              quiet_world "mdpi" 48 quiet_world_fault_free stored_icon_sizes_encodable
              ltac:(unfold densities; set_solver))
    as (w' & png & Hrun & _ & Hlauncher & Hround).
  exists w', png. split; [exact Hrun|]. split; [exact Hlauncher|exact Hround].
Defined.



(** A run in which [os.makedirs] is refused: nothing is written. *)
Example refused_run_writes_nothing :
  files (run_script (zlib := Stored.codec) refusing_world).1 = ∅.
Proof. vm_compute. reflexivity. Qed.

(** * Further properties of the code *)

Lemma forallb_in_byte_range_false (values : list Z) (v : Z) :
  v ∈ values -> ~ 0 <= v < 256 -> forallb in_byte_range values = false.
Proof.
  intros Hin Hv. destruct (forallb in_byte_range values) eqn:E; [|reflexivity].
  rewrite forallb_forall in E. apply list_elem_of_In in Hin.
  apply E, in_byte_range_spec in Hin. contradiction.
Qed.

Section EncoderEdges.
Context {zlib : Zlib.ZlibModule}.

(** Property X1.  A width or height that is negative or 2^32 or more makes
    [create_png] raise [struct.error], whatever the colours: the header is
    packed first. *)
Theorem create_png_rejects_dimension (w h : Z) (bg_color text_color : list Z) :
  ~ (0 <= w < 4294967296 /\ 0 <= h < 4294967296) ->
  exists msg, create_png w h bg_color text_color = Raise (struct_error msg).
Proof.
  intros Hn. unfold create_png.
  destruct (pack_ihdr_raises w h Hn) as [msg ->].
  exists msg. reflexivity.
Qed.

(** Property X2.  With both dimensions positive (and within 32 bits), a
    colour value outside 0..255 makes [create_png] raise [ValueError] from
    [bytearray.extend]. *)
Theorem create_png_rejects_color (w h v : Z) (bg_color text_color : list Z) :
  0 < w < 4294967296 -> 0 < h < 4294967296 ->
  v ∈ bg_color -> ~ 0 <= v < 256 ->
  create_png w h bg_color text_color
  = Raise (ValueError "byte must be in range(0, 256)").
Proof.
  intros Hw Hh Hin Hv. unfold create_png.
  rewrite pack_ihdr, bind_Return by lia.
  rewrite (create_chunk_framed _ (PNG.ihdr_payload w h)), bind_Return
    by (rewrite ihdr_payload_length; lia).
  rewrite build_image_data_raises;
    [reflexivity|lia|lia|exact (forallb_in_byte_range_false _ _ Hin Hv)].
Qed.

(** Property X3.  [create_png] does not check the number of colour
    components.  With positive dimensions, whatever it returns is the
    datastream whose header declares width, height and 8-bit truecolour
    and whose IDAT payload is the compression of a raw buffer holding
    [len(bg_color)] bytes per pixel, height * (1 + len(bg_color) * width)
    in all.  When the colour has not exactly three components, this is
    not the height * (1 + 3 * width) bytes of that many truecolour
    scanlines. *)
Theorem create_png_color_components (w h : Z) (bg_color text_color : list Z) (out : bytes) :
  0 < w -> 0 < h ->
  create_png w h bg_color text_color = Return out ->
  exists raw,
    build_image_data w h bg_color = Return raw
    /\ out = PNG.datastream (PNG.ihdr_payload w h) (Zlib.compress raw 9)
    /\ PNG.read_header (PNG.ihdr_payload w h)
       = Some {| PNG.width := w; PNG.height := h; PNG.bit_depth := 8;
                 PNG.color_type := 2; PNG.compression_method := 0;
                 PNG.filter_method := 0; PNG.interlace_method := 0 |}
    /\ Z.of_nat (length raw) = h * (1 + Z.of_nat (length bg_color) * w)
    /\ (length bg_color <> 3%nat -> Z.of_nat (length raw) <> h * (1 + 3 * w)).
Proof.
  intros Hw Hh Hout.
  apply create_png_returns in Hout as [(Hwr & Hhr & Hc & Hfit) ->].
  exists (image_buffer w h bg_color).
  assert (Hlen : Z.of_nat (length (image_buffer w h bg_color))
                 = h * (1 + Z.of_nat (length bg_color) * w)).
  { unfold image_buffer. rewrite solid_buffer_length, length_map.
    rewrite Nat2Z.inj_mul, Nat2Z.inj_add, Nat2Z.inj_mul, !Z2Nat.id by lia.
    reflexivity. }
  split; [|split; [|split; [|split]]].
  - apply build_image_data_ok. destruct Hc as [|[|]]; [lia|lia|tauto].
  - reflexivity.
  - apply read_header_ihdr; assumption.
  - exact Hlen.
  - intros Hn. rewrite Hlen.
    assert (Z.of_nat (length bg_color) <> 3) by lia. nia.
Qed.

End EncoderEdges.

Lemma framed_iend : PNG.framed (list_byte_of_string "IEND") [] = iend_chunk_bytes.
Proof. vm_compute. reflexivity. Qed.

Lemma framed_total_length (chunk_type data : bytes) :
  length (PNG.framed chunk_type data)
  = (8 + length chunk_type + length data)%nat.
Proof. unfold PNG.framed. rewrite !length_app, !uint32_be_length. lia. Qed.

Section EncoderShape.
Context {zlib : Zlib.ZlibModule}.

(** Property X4.  Whatever [create_png] returns is 57 bytes longer than
    the compressed image data, starts with the 8-byte signature and ends
    with the fixed 12-byte IEND chunk. *)
Theorem create_png_output_shape (w h : Z) (bg_color text_color : list Z) (out : bytes) :
  create_png w h bg_color text_color = Return out ->
  Z.of_nat (length out)
  = 57 + Z.of_nat (length (Zlib.compress (image_buffer w h bg_color) 9))
  /\ take 8 out = png_signature
  /\ drop (length out - 12) out = iend_chunk_bytes.
Proof.
  intros Hout. apply create_png_returns in Hout as [_ ->].
  unfold PNG.datastream. rewrite framed_iend.
  assert (Hlen : forall idat : bytes,
            length (png_signature
                    ++ PNG.framed (list_byte_of_string "IHDR") (PNG.ihdr_payload w h)
                    ++ PNG.framed (list_byte_of_string "IDAT") idat
                    ++ iend_chunk_bytes)
            = (57 + length idat)%nat).
  { intros idat. rewrite !length_app, !framed_total_length, ihdr_payload_length.
    change (length (list_byte_of_string "IHDR")) with 4%nat.
    change (length (list_byte_of_string "IDAT")) with 4%nat.
    change (length png_signature) with 8%nat.
    change (length iend_chunk_bytes) with 12%nat. lia. }
  split; [|split].
  - rewrite Hlen. lia.
  - reflexivity.
  - rewrite Hlen. rewrite !app_assoc. apply drop_app_length'.
    rewrite !length_app, !framed_total_length, ihdr_payload_length.
    change (length (list_byte_of_string "IHDR")) with 4%nat.
    change (length (list_byte_of_string "IDAT")) with 4%nat.
    change (length png_signature) with 8%nat. lia.
Qed.

End EncoderShape.

(** Property X5.  [zlib.crc32] always lies in [0, 2^32): the mask
    [& 0xffffffff] of [create_chunk] leaves it unchanged, and packing the
    CRC never raises. *)
Theorem crc32_fits_32_bits (data : bytes) :
  0 <= Zlib.crc32 data < 4294967296
  /\ Z.land (Zlib.crc32 data) 0xffffffff = Zlib.crc32 data
  /\ Struct.pack [Struct.fmt_I] [Z.land (Zlib.crc32 data) 0xffffffff]
     = Return (PNG.uint32_be (Zlib.crc32 data)).
Proof.
  split; [apply crc32_range|]. split; [apply crc32_mask|].
  change 0xffffffff with 4294967295. rewrite crc32_mask.
  apply pack_uint32, crc32_range.
Qed.

Lemma write_chunks_framed (chunks : list PNG.chunk) :
  Forall well_sized chunks ->
  write_chunks chunks
  = Return (concat (map (fun c => PNG.framed (PNG.chunk_type c) (PNG.chunk_data c)) chunks)).
Proof.
  induction 1 as [|c chunks [_ Hc] _ IH]; [reflexivity|].
  cbn [write_chunks]. rewrite create_chunk_framed, bind_Return by exact Hc.
  rewrite IH, bind_Return. reflexivity.
Qed.

Lemma read_chunks_concat (chunks : list PNG.chunk) :
  Forall well_sized chunks ->
  forall fuel : nat,
    (length chunks <= fuel)%nat ->
    PNG.read_chunks fuel
      (concat (map (fun c => PNG.framed (PNG.chunk_type c) (PNG.chunk_data c)) chunks))
    = Some chunks.
Proof.
  induction 1 as [|c chunks [Hty Hc] _ IH]; intros fuel Hfuel.
  - apply read_chunks_nil.
  - destruct fuel as [|fuel]; [cbn [length] in Hfuel; lia|].
    cbn [map concat]. rewrite read_chunks_framed by assumption.
    rewrite IH by (cbn [length] in Hfuel; lia).
    destruct c. reflexivity.
Qed.

Lemma framed_concat_length (chunks : list PNG.chunk) :
  (length chunks
   <= length (concat (map (fun c => PNG.framed (PNG.chunk_type c) (PNG.chunk_data c))
                        chunks)))%nat.
Proof.
  induction chunks as [|c chunks IH]; [reflexivity|].
  cbn [map concat length]. rewrite length_app, framed_total_length. lia.
Qed.

(** Property X6.  Chunks written one after the other by [create_chunk]
    are read back as the same list of types and payloads (every length
    and CRC checks), provided each has a 4-byte type and a payload of
    fewer than 2^32 bytes. *)
Theorem chunks_round_trip (chunks : list PNG.chunk) :
  Forall well_sized chunks ->
  exists out,
    write_chunks chunks = Return out
    /\ PNG.chunks_of (png_signature ++ out) = Some chunks.
Proof.
  intros Hok. eexists. split; [apply write_chunks_framed, Hok|].
  unfold PNG.chunks_of.
  change (take 8 (png_signature ++ ?l)) with png_signature.
  rewrite bytes_eqb_refl.
  change (drop 8 (png_signature ++ ?l)) with l.
  apply read_chunks_concat; [exact Hok|].
  rewrite length_app. pose proof (framed_concat_length chunks). lia.
Qed.

(** Width -1. *)
Lemma create_png_rejects_dimension_witness :
  exists msg,
    create_png (zlib := Stored.codec) (-1) 48 default_bg_color default_text_color
    = Raise (struct_error msg).
Proof.
  apply (create_png_rejects_dimension (zlib := Stored.codec)). lia.
Defined.

(** A blue value of 256. *)
Lemma create_png_rejects_color_witness :
  create_png (zlib := Stored.codec) 48 48 [255; 107; 256] default_text_color
  = Raise (ValueError "byte must be in range(0, 256)").
Proof.
  apply (create_png_rejects_color (zlib := Stored.codec) 48 48 256);
    [lia|lia|set_solver|lia].
Defined.

(** A colour with a fourth (alpha) component, 1 x 1 pixel: five bytes of
    raw data under a header that announces four. *)
Lemma create_png_color_components_witness :
  exists out raw,
    create_png (zlib := Stored.codec) 1 1 [255; 107; 107; 255] default_text_color
    = Return out
    /\ build_image_data 1 1 [255; 107; 107; 255] = Return raw
    /\ Z.of_nat (length raw) = 5
    /\ Z.of_nat (length raw) <> 1 * (1 + 3 * 1).
Proof.
  assert (Hout : create_png (zlib := Stored.codec) 1 1 [255; 107; 107; 255]
                   default_text_color
                 = Return (PNG.datastream (PNG.ihdr_payload 1 1)
                             (Stored.compress (image_buffer 1 1 [255; 107; 107; 255]) 9))).
  { apply (create_png_encodable (zlib := Stored.codec)).
    apply stored_encodable; [lia|lia|right; right; reflexivity|vm_compute; reflexivity]. }
  destruct (create_png_color_components (zlib := Stored.codec) 1 1 [255; 107; 107; 255]
              default_text_color _ ltac:(lia) ltac:(lia) Hout)
    as (raw & Hraw & _ & _ & Hlen & Hdiff).
  eexists. exists raw. split; [exact Hout|]. split; [exact Hraw|].
  split; [exact Hlen|]. apply Hdiff. cbn [length]. lia.
Defined.

(** The 1 x 1 image with the reference codec: 57 + 15 bytes. *)
Lemma create_png_output_shape_witness :
  exists out,
    create_png (zlib := Stored.codec) 1 1 default_bg_color default_text_color = Return out
    /\ Z.of_nat (length out) = 72.
Proof.
  assert (Hout : create_png (zlib := Stored.codec) 1 1 default_bg_color default_text_color
                 = Return (PNG.datastream (PNG.ihdr_payload 1 1)
                             (Stored.compress (image_buffer 1 1 default_bg_color) 9))).
  { apply (create_png_encodable (zlib := Stored.codec)).
    apply stored_encodable; [lia|lia|right; right; reflexivity|vm_compute; reflexivity]. }
  eexists. split; [exact Hout|].
  destruct (create_png_output_shape (zlib := Stored.codec) 1 1 default_bg_color
              default_text_color _ Hout) as [Hlen _].
  rewrite Hlen. vm_compute. reflexivity.
Defined.

(** A text chunk followed by IEND. *)
Lemma chunks_round_trip_witness :
  exists out,
    write_chunks [ {| PNG.chunk_type := list_byte_of_string "tEXt";
                      PNG.chunk_data := list_byte_of_string "icon" |};
                   {| PNG.chunk_type := list_byte_of_string "IEND";
                      PNG.chunk_data := [] |} ] = Return out
    /\ PNG.chunks_of (png_signature ++ out)
       = Some [ {| PNG.chunk_type := list_byte_of_string "tEXt";
                   PNG.chunk_data := list_byte_of_string "icon" |};
                {| PNG.chunk_type := list_byte_of_string "IEND";
                   PNG.chunk_data := [] |} ].
Proof.
  apply chunks_round_trip.
  repeat (apply Forall_cons_2; [split; [reflexivity|cbn; lia]|]). apply Forall_nil_2.
Defined.

Lemma only_adds_refl (allowed : list string) (w : World) : only_adds allowed w w.
Proof. unfold only_adds. repeat split; reflexivity. Qed.

Lemma only_adds_trans (allowed : list string) (w1 w2 w3 : World) :
  only_adds allowed w1 w2 -> only_adds allowed w2 w3 -> only_adds allowed w1 w3.
Proof.
  intros (Hf1 & Hk1 & Hd1 & Hr1 & Ho1) (Hf2 & Hk2 & Hd2 & Hr2 & Ho2).
  unfold only_adds. split; [congruence|]. split.
  - intros path Hp. rewrite Hk2, Hk1 by exact Hp. reflexivity.
  - split; [etrans; eassumption|]. split; etrans; eassumption.
Qed.

Lemma keeps_to_bind {A B : Type} (allowed : list string) (f : A -> Prog B) (m : Prog A) :
  keeps_to allowed m -> (forall a, keeps_to allowed (f a)) ->
  keeps_to allowed (mbind f m).
Proof.
  intros Hm Hf w. rewrite prog_bind_unfold. specialize (Hm w).
  destruct (m w) as [[a|e] w1]; cbn [snd] in *; [|exact Hm].
  eapply only_adds_trans; [exact Hm|apply Hf].
Qed.

Lemma keeps_to_bind_returned {A B : Type} (allowed : list string)
    (f : A -> Prog B) (m : Prog A) :
  keeps_to allowed m ->
  (forall a w w', m w = (Return a, w') -> only_adds allowed w' (f a w').2) ->
  keeps_to allowed (mbind f m).
Proof.
  intros Hm Hf w. rewrite prog_bind_unfold. specialize (Hm w).
  destruct (m w) as [[a|e] w1] eqn:E; cbn [snd] in *; [|exact Hm].
  eapply only_adds_trans; [exact Hm|]. apply (Hf a w w1 E).
Qed.

Lemma keeps_to_ret {A : Type} (allowed : list string) (a : A) :
  keeps_to allowed (mret a : Prog A).
Proof. intros w. apply only_adds_refl. Qed.

Lemma keeps_to_lift {A : Type} (allowed : list string) (r : result A) :
  keeps_to allowed (lift r).
Proof. intros w. apply only_adds_refl. Qed.

Lemma keeps_to_syscall (allowed : list string) (call : syscall) (effect : World -> World) :
  (forall w, only_adds allowed w (effect w)) ->
  keeps_to allowed (syscall_ call effect).
Proof.
  intros He w. unfold syscall_. destruct (fault w call); cbn [snd].
  - apply only_adds_refl.
  - apply He.
Qed.

Lemma keeps_to_print (allowed : list string) (line : string) :
  keeps_to allowed (print line).
Proof.
  apply keeps_to_syscall. intros w. unfold only_adds, with_stdout.
  cbn [files dirs stdout fault].
  repeat split; try reflexivity. apply prefix_app_r. reflexivity.
Qed.

Lemma keeps_to_makedirs (allowed : list string) (path : string) :
  keeps_to allowed (makedirs path).
Proof.
  apply keeps_to_syscall. intros w. unfold only_adds, with_dirs.
  cbn [files dirs stdout fault]. repeat split; try reflexivity.
  apply union_subseteq_l.
Qed.

Lemma insert_only_adds (allowed : list string) (path : string) (data : bytes) (w : World) :
  path ∈ allowed ->
  only_adds allowed w (with_files (<[path := data]> (files w)) w).
Proof.
  intros Hp. unfold only_adds, with_files. cbn [files dirs stdout fault].
  repeat split; try reflexivity.
  - intros other Ho. apply lookup_insert_ne. intros ->. contradiction.
  - apply dom_insert_subseteq.
Qed.

Lemma keeps_to_open_wb (allowed : list string) (path : string) :
  path ∈ allowed -> keeps_to allowed (open_wb path).
Proof.
  intros Hp. unfold open_wb. apply keeps_to_bind; [|intros a; apply keeps_to_ret].
  apply keeps_to_syscall. intros w. apply insert_only_adds, Hp.
Qed.

Lemma keeps_to_file_write (allowed : list string) (path : string) (data : bytes) :
  path ∈ allowed -> keeps_to allowed (file_write path data).
Proof.
  intros Hp. apply keeps_to_syscall. intros w. apply insert_only_adds, Hp.
Qed.

Lemma keeps_to_for_each {A : Type} (allowed : list string) (xs : list A)
    (body : A -> Prog unit) :
  (forall x, x ∈ xs -> keeps_to allowed (body x)) ->
  keeps_to allowed (for_each xs body).
Proof.
  induction xs as [|x xs IH]; intros Hb; cbn [for_each].
  - apply keeps_to_ret.
  - apply keeps_to_bind; [apply Hb; left|intros _; apply IH].
    intros y Hy. apply Hb. right. exact Hy.
Qed.

Lemma open_wb_handle (path : string) (w : World) (f : string) (w' : World) :
  open_wb path w = (Return f, w') -> f = path.
Proof.
  unfold open_wb. rewrite prog_bind_unfold. unfold syscall_.
  destruct (fault w (sys_open_wb path)); [discriminate|].
  unfold mret, prog_ret. intros H. injection H as H _. symmetry. exact H.
Qed.

Section DriverFrame.
Context {zlib : Zlib.ZlibModule}.

Lemma icon_paths_expected (entry : string * Z) :
  entry ∈ densities ->
  launcher_path entry.1 ∈ expected_icons.*1
  /\ launcher_round_path entry.1 ∈ expected_icons.*1.
Proof.
  unfold densities. intros H.
  repeat (apply elem_of_cons in H as [H|H];
          [subst entry; split; apply (bool_decide_unpack _); vm_compute; exact I|]).
  apply elem_of_nil in H. contradiction.
Qed.

Lemma keeps_to_generate_icon (entry : string * Z) :
  entry ∈ densities -> keeps_to expected_icons.*1 (generate_icon entry).
Proof.
  intros Hin. destruct (icon_paths_expected entry Hin) as [Hl Hr].
  destruct entry as [density size]. cbn [fst] in Hl, Hr. unfold generate_icon.
  apply keeps_to_bind; [apply keeps_to_makedirs|intros _].
  apply keeps_to_bind; [apply keeps_to_lift|intros png].
  apply keeps_to_bind_returned; [apply keeps_to_open_wb, Hl|].
  intros f w0 w1 Eo. apply open_wb_handle in Eo as ->. revert w1.
  apply keeps_to_bind; [apply keeps_to_file_write, Hl|intros _].
  apply keeps_to_bind; [apply keeps_to_print|intros _].
  apply keeps_to_bind_returned; [apply keeps_to_open_wb, Hr|].
  intros f w2 w3 Eo. apply open_wb_handle in Eo as ->. revert w3.
  apply keeps_to_bind; [apply keeps_to_file_write, Hr|intros _].
  apply keeps_to_print.
Qed.

Lemma keeps_to_generate_all_icons : keeps_to expected_icons.*1 generate_all_icons.
Proof.
  unfold generate_all_icons.
  apply keeps_to_bind; [apply keeps_to_print|intros _].
  apply keeps_to_bind; [apply keeps_to_print|intros _].
  apply keeps_to_bind;
    [apply keeps_to_for_each; intros; apply keeps_to_generate_icon; assumption|intros _].
  apply keeps_to_for_each. intros; apply keeps_to_print.
Qed.

(** Property X7.  From every world and whatever call fails,
    [generate_all_icons], and the script around it, change no file other
    than the ten icon files, remove no file and no directory, and only
    append to the console. *)
Theorem script_only_adds (w : World) :
  only_adds expected_icons.*1 w (generate_all_icons w).2
  /\ only_adds expected_icons.*1 w (run_script w).1.
Proof.
  split; [apply keeps_to_generate_all_icons|].
  unfold run_script, main, try_except.
  pose proof (keeps_to_generate_all_icons w) as Hg.
  destruct (generate_all_icons w) as [[[]|e] w1]; cbn [snd fst] in *; [exact Hg|].
  eapply only_adds_trans; [exact Hg|].
  pose proof (keeps_to_for_each expected_icons.*1 (error_line e :: remediation_lines)
                print (fun line _ => keeps_to_print _ line) w1) as Hh.
  rewrite handler_for_each.
  destruct (for_each _ print w1) as [r w2]. exact Hh.
Qed.

End DriverFrame.

Section DriverRun.
Context {zlib : Zlib.ZlibModule}.

Lemma stdout_after_generation (w : World) :
  stdout (after_generation w)
  = stdout w ++ opening_lines ++ created_lines ++ closing_lines.
Proof.
  unfold after_generation, icons_written, densities. cbn [foldl].
  unfold icon_written, with_stdout. cbn [stdout fst snd].
  rewrite <- !app_assoc. reflexivity.
Qed.

Lemma dirs_after_generation (w : World) :
  dirs (after_generation w) = dirs w ∪ list_to_set icon_directories.
Proof.
  unfold after_generation, icons_written, densities. cbn [foldl].
  unfold icon_written, with_stdout. cbn [dirs fst snd].
  change (leading_dirs "" (mipmap_dir "mdpi"))
    with ["app"; "app/src"; "app/src/main"; "app/src/main/res";
          "app/src/main/res/mipmap-mdpi"].
  change (leading_dirs "" (mipmap_dir "hdpi"))
    with ["app"; "app/src"; "app/src/main"; "app/src/main/res";
          "app/src/main/res/mipmap-hdpi"].
  change (leading_dirs "" (mipmap_dir "xhdpi"))
    with ["app"; "app/src"; "app/src/main"; "app/src/main/res";
          "app/src/main/res/mipmap-xhdpi"].
  change (leading_dirs "" (mipmap_dir "xxhdpi"))
    with ["app"; "app/src"; "app/src/main"; "app/src/main/res";
          "app/src/main/res/mipmap-xxhdpi"].
  change (leading_dirs "" (mipmap_dir "xxxhdpi"))
    with ["app"; "app/src"; "app/src/main"; "app/src/main/res";
          "app/src/main/res/mipmap-xxxhdpi"].
  apply set_eq. intros d.
  rewrite !elem_of_union, !elem_of_list_to_set.
  unfold icon_directories. rewrite !elem_of_cons, !elem_of_nil. tauto.
Qed.

(** Property X8.  A run whose system calls all succeed exits with status
    0 after printing, in this order, the two opening lines, one line per
    icon file (regular then round, in the order of the density table,
    each with its path and size) and the seven closing lines; it prints
    no error line. *)
Theorem successful_run_console (w : World) :
  fault_free w ->
  Forall (fun size => encodable size size default_bg_color) [48; 72; 96; 144; 192] ->
  exists w',
    run_script w = (w', 0)
    /\ stdout w' = stdout w ++ opening_lines ++ created_lines ++ closing_lines.
Proof.
  intros Hf He. exists (after_generation w).
  split; [|apply stdout_after_generation].
  unfold run_script, main, try_except.
  rewrite generate_all_icons_ok by (try assumption; apply densities_encodable, He).
  reflexivity.
Qed.

(** Property X9.  A run whose system calls all succeed leaves the five
    mipmap directories and their leading directories in place, and adds
    no other directory. *)
Theorem successful_run_directories (w : World) :
  fault_free w ->
  Forall (fun size => encodable size size default_bg_color) [48; 72; 96; 144; 192] ->
  exists w',
    generate_all_icons w = (Return tt, w')
    /\ dirs w' = dirs w ∪ list_to_set icon_directories.
Proof.
  intros Hf He. exists (after_generation w).
  split; [|apply dirs_after_generation].
  apply generate_all_icons_ok; [exact Hf|apply densities_encodable, He].
Qed.

(** Property X10.  Running the driver a second time succeeds as well and
    leaves every file and directory as the first run left it: the icons
    are overwritten with the same bytes. *)
Theorem second_run_changes_no_file (w : World) :
  fault_free w ->
  Forall (fun size => encodable size size default_bg_color) [48; 72; 96; 144; 192] ->
  exists w1 w2,
    generate_all_icons w = (Return tt, w1)
    /\ generate_all_icons w1 = (Return tt, w2)
    /\ files w2 = files w1
    /\ dirs w2 = dirs w1.
Proof.
  intros Hf He. exists (after_generation w), (after_generation (after_generation w)).
  assert (Hd := densities_encodable He).
  split; [apply generate_all_icons_ok; assumption|].
  split; [apply generate_all_icons_ok; [intros call; apply Hf|exact Hd]|].
  split.
  - rewrite !files_after_generation.
    rewrite (assoc_L (∪)), (idemp_L (∪)). reflexivity.
  - rewrite !dirs_after_generation.
    rewrite <- (assoc_L (∪)), (idemp_L (∪)). reflexivity.
Qed.

End DriverRun.

(** The console after a run from [quiet_world]. *)
Lemma successful_run_console_witness :
  exists w',
    run_script (zlib := Stored.codec) quiet_world = (w', 0)
    /\ stdout w' = opening_lines ++ created_lines ++ closing_lines.
Proof.
  destruct (successful_run_console (zlib := Stored.codec) quiet_world
              quiet_world_fault_free stored_icon_sizes_encodable) as (w' & Hrun & Hout).
  exists w'. split; [exact Hrun|exact Hout].
Defined.

(** The directories after a run from [quiet_world]. *)
Lemma successful_run_directories_witness :
  exists w',
    generate_all_icons (zlib := Stored.codec) quiet_world = (Return tt, w')
    /\ dirs w' = list_to_set icon_directories.
Proof.
  destruct (successful_run_directories (zlib := Stored.codec) quiet_world
              quiet_world_fault_free stored_icon_sizes_encodable) as (w' & Hrun & Hd).
  exists w'. split; [exact Hrun|].
  rewrite Hd. cbn [dirs quiet_world]. apply (left_id_L ∅ (∪)).
Defined.

(** Two runs from [quiet_world]. *)
Lemma second_run_changes_no_file_witness :
  exists w1 w2,
    generate_all_icons (zlib := Stored.codec) quiet_world = (Return tt, w1)
    /\ generate_all_icons (zlib := Stored.codec) w1 = (Return tt, w2)
    /\ files w2 = files w1.
Proof.
  destruct (second_run_changes_no_file (zlib := Stored.codec) quiet_world
              quiet_world_fault_free stored_icon_sizes_encodable)
    as (w1 & w2 & H1 & H2 & Hfiles & _).
  exists w1, w2. split; [exact H1|]. split; [exact H2|exact Hfiles].
Defined.
